(** * Swarm for local LLMs: the turn orchestrator of [swarm/core.py]

    A shallow embedding of [Swarm.handle_function_result],
    [Swarm.handle_tool_calls], [Swarm.get_chat_completion], [Swarm.run] and
    [Swarm.run_and_stream], with the properties of the orchestration loop
    stated over it.

    Python dictionaries are finite maps ([gmap]) with string keys, lists are
    lists, exceptions are an explicit result type, and the calls to the
    backend are threaded through a small state-and-exception monad that also
    records every request sent and every event yielded. *)

From Stdlib Require Import ZArith String Ascii List Lia.
From stdpp Require Import base option list gmap strings.

Local Open Scope string_scope.
Local Open Scope list_scope.
Set Warnings "-register-all".

(** ** Python values *)

(** The values that travel in context variables and keyword arguments. *)
Inductive PyValue : Type :=
| PyNone
| PyBool (b : bool)
| PyInt (z : Z)
| PyStr (s : string)
| PyList (l : list PyValue)
| PyDict (d : gmap string PyValue).

Abbreviation dict := (gmap string PyValue).

(** [d.update(delta)]: every key of [delta] is written into [d]. stdpp's
    union keeps the left operand on a clash, so the delta goes left. *)
Definition update (d delta : dict) : dict := delta ∪ d.

(** ** Exceptions *)

Record Exception : Type := mkException {
  exc_class : string;
  exc_msg : string          (* what [str(e)] returns *)
}.

Inductive except (A : Type) : Type :=
| Return (a : A)
| Raise (e : Exception).
Arguments Return {A} a.
Arguments Raise {A} e.

Definition except_bind {A B} (c : except A) (k : A -> except B) : except B :=
  match c with
  | Return a => k a
  | Raise e => Raise e
  end.

Definition TypeError (msg : string) : Exception := mkException "TypeError" msg.
Definition AttributeError (msg : string) : Exception :=
  mkException "AttributeError" msg.

(** An object that is neither a [Result], an [Agent] nor a [str], seen through
    the two conversions the code applies to it: [str(o)] and the formatting of
    [o] inside an f-string. A class that does not define [__format__] inherits
    [object.__format__], which for an empty format specification returns
    [str(self)]; [obj_format = None] stands for that case. *)
Record PyObject : Type := mkPyObject {
  obj_str : except string;
  obj_format : option (except string)
}.

Definition py_str (o : PyObject) : except string := obj_str o.

Definition py_format (o : PyObject) : except string :=
  match obj_format o with
  | Some r => r
  | None => py_str o
  end.

(** ** The types of [swarm/types.py] *)

Record Function : Type := mkFunction {
  fn_arguments : string;
  fn_name : string
}.

Record ChatCompletionMessageToolCall : Type := mkToolCall {
  tc_id : string;
  tc_function : Function;
  tc_type : string
}.

(** Instructions are a string or a callable applied to
    [defaultdict(str, context_variables)]. *)
Record defaultdict : Type := mkDefaultdict {
  dd_factory : PyValue;
  dd_data : dict
}.

Definition dd_get (d : defaultdict) (k : string) : PyValue :=
  default (dd_factory d) (dd_data d !! k).

Inductive Instructions : Type :=
| InstrStr (s : string)
| InstrCallable (f : defaultdict -> string).

(** Modelled from the spec: the declarations of [swarm/types.py] ([Agent],
    [AgentFunction], [Result], [Response]) are not among the sources. An
    [Agent] has a name, a model, instructions, an ordered list of functions, a
    tool-choice policy and the parallel-tool-calls flag; an entry of
    [functions] has a [name] and a [function] (as [handle_tool_calls] reads
    them); a [Result] has a string value, an optional next agent and a
    context-variable delta.

    A tool is a Python function: the names of its code object
    ([__code__.co_varnames]: the parameters first, then the local variables),
    the number of parameters among them, and what a call with given keyword
    arguments returns or raises. The parameters are positional-or-keyword
    ones: a tool with keyword-only parameters or with a parameter that
    collects the remaining keywords is outside the model. Tools are taken to
    report changes of the context through their [Result], as the spec
    assumes: the body is a function of the keyword arguments, and a tool that
    changes the mapping it was handed, in place, is outside the model too. *)
Inductive Agent : Type :=
| mkAgent (name : string) (model : string) (instructions : Instructions)
    (functions : list AgentFunction) (tool_choice : option string)
    (parallel_tool_calls : bool)
with AgentFunction : Type :=
| mkAgentFunction (name : string) (function : PyFunction)
with PyFunction : Type :=
| mkPyFunction (co_varnames : list string) (co_argcount : nat)
    (body : dict -> except RawResult)
with RawResult : Type :=
| RResult (r : Result)
| RAgent (a : Agent)
| RStr (s : string)
| RObject (o : PyObject)
with Result : Type :=
| mkResult (value : string) (agent : option Agent) (context_variables : dict).

Definition agent_name (a : Agent) : string :=
  let '(mkAgent name _ _ _ _ _) := a in name.
Definition agent_model (a : Agent) : string :=
  let '(mkAgent _ model _ _ _ _) := a in model.
Definition agent_instructions (a : Agent) : Instructions :=
  let '(mkAgent _ _ instructions _ _ _) := a in instructions.
Definition agent_functions (a : Agent) : list AgentFunction :=
  let '(mkAgent _ _ _ functions _ _) := a in functions.
Definition agent_tool_choice (a : Agent) : option string :=
  let '(mkAgent _ _ _ _ tool_choice _) := a in tool_choice.
Definition agent_parallel_tool_calls (a : Agent) : bool :=
  let '(mkAgent _ _ _ _ _ parallel_tool_calls) := a in parallel_tool_calls.

Definition f_name (f : AgentFunction) : string :=
  let '(mkAgentFunction name _) := f in name.
Definition f_function (f : AgentFunction) : PyFunction :=
  let '(mkAgentFunction _ function) := f in function.

Definition co_varnames (f : PyFunction) : list string :=
  let '(mkPyFunction names _ _) := f in names.
Definition co_argcount (f : PyFunction) : nat :=
  let '(mkPyFunction _ n _) := f in n.
Definition body (f : PyFunction) : dict -> except RawResult :=
  let '(mkPyFunction _ _ b) := f in b.

Definition result_value (r : Result) : string :=
  let '(mkResult value _ _) := r in value.
Definition result_agent (r : Result) : option Agent :=
  let '(mkResult _ agent _) := r in agent.
Definition result_context_variables (r : Result) : dict :=
  let '(mkResult _ _ context_variables) := r in context_variables.

(** The parameters a function's signature declares: the leading
    [co_argcount] names of [co_varnames]. *)
Definition parameters (f : PyFunction) : list string :=
  take (co_argcount f) (co_varnames f).

(** Calling [f] with keyword arguments only: Python binds the keywords to the declared parameters and
    raises [TypeError] on a keyword that is none of them; otherwise the body
    runs. *)
Definition py_call (f : PyFunction) (kwargs : dict) : except RawResult :=
  match List.find (fun k => negb (bool_decide (k ∈ parameters f)))
                  (map fst (map_to_list kwargs)) with
  | Some k => Raise (TypeError ("got an unexpected keyword argument '" +:+ k +:+ "'"))
  | None => body f kwargs
  end.

(** A message of the history: a dictionary with these keys, a missing key and
    a [None] value both being [None]. *)
Record Message : Type := mkMessage {
  role : string;
  content : option string;
  sender : option string;
  function_call : option string;
  tool_calls : option (list ChatCompletionMessageToolCall);
  tool_call_id : option string;
  tool_name : option string
}.

Definition set_sender (m : Message) (s : string) : Message :=
  mkMessage (role m) (content m) (Some s) (function_call m) (tool_calls m)
            (tool_call_id m) (tool_name m).

Record Response : Type := mkResponse {
  messages : list Message;
  agent : option Agent;
  context_variables : dict
}.

(** ** [json.dumps] of a string *)

Definition dquote : string := String "034"%char "".
Definition backslash : string := String "092"%char "".

Definition hex_digit (n : nat) : string :=
  String (default "0"%char (List.nth_error (list_ascii_of_string "0123456789abcdef") n)) "".

(** With [ensure_ascii], every character outside [' '..'~'] and the two
    characters quote and backslash are escaped. Characters are the code points
    0 to 255. *)
Definition json_escape_char (c : ascii) : string :=
  let n := nat_of_ascii c in
  if decide (n = 34) then backslash +:+ dquote
  else if decide (n = 92) then backslash +:+ backslash
  else if decide (n = 10) then backslash +:+ "n"
  else if decide (n = 13) then backslash +:+ "r"
  else if decide (n = 9) then backslash +:+ "t"
  else if decide (n = 12) then backslash +:+ "f"
  else if decide (n = 8) then backslash +:+ "b"
  else if decide (32 <= n <= 126)%nat then String c ""
  else backslash +:+ "u00" +:+ hex_digit (n / 16) +:+ hex_digit (n mod 16).

Fixpoint json_escape (s : string) : string :=
  match s with
  | EmptyString => ""
  | String c s' => json_escape_char c +:+ json_escape s'
  end.

Definition json_dumps_str (s : string) : string :=
  dquote +:+ json_escape s +:+ dquote.

(** [json.dumps({"assistant": name})]. *)
Definition json_dumps_assistant (name : string) : string :=
  "{" +:+ dquote +:+ "assistant" +:+ dquote +:+ ": " +:+ json_dumps_str name +:+ "}".

(** ** [Swarm.handle_function_result] *)

(** Modelled from the spec: the defaults of [Result] in [swarm/types.py],
    which is not among the sources. In [Result(value=..., agent=...)] the
    fields left out take their defaults, no agent and an empty delta. *)
Definition Result_ (value : string) (agent : option Agent) : Result :=
  mkResult value agent ∅.

Definition cast_error_message (formatted : string) (e : Exception) : string :=
  "Failed to cast response to string: " +:+ formatted +:+
  ". Make sure agent functions return a string or Result object. Error: " +:+
  exc_msg e.

Definition handle_function_result (result : RawResult) : except Result :=
  match result with
  | RResult result => Return result
  | RAgent agent =>
      Return (Result_ (json_dumps_assistant (agent_name agent)) (Some agent))
  | RStr s => Return (Result_ s None)
  | RObject o =>
      match py_str o with
      | Return s => Return (Result_ s None)
      | Raise e =>
          (* the f-string formats [result] before the TypeError is built *)
          match py_format o with
          | Return formatted => Raise (TypeError (cast_error_message formatted e))
          | Raise e' => Raise e'
          end
      end
  end.

(** ** What the code takes from outside the repository's sources *)

(** The JSON schema [function_to_json] builds for a tool: the part that
    [get_chat_completion] touches is [parameters.properties] and
    [parameters.required]. *)
Record ToolSchema : Type := mkToolSchema {
  schema_name : string;
  schema_description : string;
  properties : gmap string PyValue;
  required : list string
}.

(** [json.loads] of the standard library, [function_to_json] of
    [swarm/util.py] and the inequality test of [Agent] values
    ([swarm/types.py]) are parameters of the development. *)
Class Externals : Type := {
  json_loads : string -> except PyValue;
  function_to_json : AgentFunction -> ToolSchema;
  Agent_ne : Agent -> Agent -> bool
}.

(** ** [Swarm.handle_tool_calls] *)

Definition __CTX_VARS_NAME__ : string := "context_variables".

(** [{f.name: f.function for f in functions}]: a later entry replaces an
    earlier one of the same name. *)
Definition function_map (functions : list AgentFunction) : gmap string PyFunction :=
  foldl (fun m f => <[f_name f := f_function f]> m) ∅ functions.

(** [next((f for f in functions if f.name == name), None)]. *)
Definition func_def (functions : list AgentFunction) (name : string)
  : option AgentFunction :=
  List.find (fun f => String.eqb (f_name f) name) functions.

Definition tool_message (tool_call : ChatCompletionMessageToolCall)
    (name content : string) : Message :=
  mkMessage "tool" (Some content) None None None (Some (tc_id tool_call)) (Some name).

Definition not_found_message (tool_call : ChatCompletionMessageToolCall) : Message :=
  let name := fn_name (tc_function tool_call) in
  tool_message tool_call name ("Error: Tool " +:+ name +:+ " not found.").

(** Whether the reserved argument is injected for a call to [name]. *)
Definition injects_context (functions : list AgentFunction) (name : string) : bool :=
  match func_def functions name with
  | Some fd => bool_decide (__CTX_VARS_NAME__ ∈ co_varnames (f_function fd))
  | None => false
  end.

(** The keyword arguments of the invocation: the deserialized payload, with
    the context mapping stored under the reserved name when it is injected.
    A payload that is not a JSON object cannot be indexed by a string nor
    unpacked as keywords. *)
Definition call_kwargs `{E : Externals} (functions : list AgentFunction)
    (ctx : dict) (tool_call : ChatCompletionMessageToolCall)
  : except dict :=
  let name := fn_name (tc_function tool_call) in
  except_bind (json_loads (fn_arguments (tc_function tool_call))) (fun args =>
  match args with
  | PyDict d =>
      Return (if injects_context functions name
              then <[__CTX_VARS_NAME__ := PyDict ctx]> d
              else d)
  | _ =>
      Raise (TypeError (if injects_context functions name
                        then "object does not support item assignment with a str key"
                        else "argument after ** must be a mapping"))
  end).

(** [if result.agent and not partial_response.agent]; an [Agent] object is
    true, [None] is false. *)
Definition first_wins (recorded new : option Agent) : option Agent :=
  match new, recorded with
  | Some a, None => Some a
  | _, _ => recorded
  end.

(** The call of a located function and the normalization of what it
    returns. *)
Definition invoke `{E : Externals} (functions : list AgentFunction) (ctx : dict)
    (tool_call : ChatCompletionMessageToolCall) (callee : PyFunction)
  : except Result :=
  except_bind (call_kwargs functions ctx tool_call) (fun args =>
  except_bind (py_call callee args) (fun raw_result =>
  handle_function_result raw_result)).

(** The body of the [for tool_call in tool_calls] loop. *)
Definition handle_tool_call `{E : Externals} (functions : list AgentFunction)
    (ctx : dict) (partial_response : Response)
    (tool_call : ChatCompletionMessageToolCall) : except Response :=
  let name := fn_name (tc_function tool_call) in
  match function_map functions !! name with
  | None =>
      Return (mkResponse (messages partial_response ++ [not_found_message tool_call])
                         (agent partial_response)
                         (context_variables partial_response))
  | Some callee =>
      except_bind (invoke functions ctx tool_call callee) (fun result =>
      Return (mkResponse
                (messages partial_response
                   ++ [tool_message tool_call name (result_value result)])
                (first_wins (agent partial_response) (result_agent result))
                (update (context_variables partial_response)
                        (result_context_variables result))))
  end.

Fixpoint handle_tool_calls_from `{E : Externals} (functions : list AgentFunction)
    (ctx : dict) (partial_response : Response)
    (tool_calls : list ChatCompletionMessageToolCall) : except Response :=
  match tool_calls with
  | [] => Return partial_response
  | tool_call :: rest =>
      except_bind (handle_tool_call functions ctx partial_response tool_call)
        (fun partial_response' =>
           handle_tool_calls_from functions ctx partial_response' rest)
  end.

Definition handle_tool_calls `{E : Externals}
    (tool_calls : list ChatCompletionMessageToolCall)
    (functions : list AgentFunction) (ctx : dict) : except Response :=
  handle_tool_calls_from functions ctx (mkResponse [] None ∅) tool_calls.

(** ** The backend *)

(** The keyword arguments of [client.chat_completions_create]. *)
Record create_params : Type := mkCreateParams {
  cp_model : string;
  cp_messages : list Message;
  cp_tools : option (list ToolSchema);
  cp_tool_choice : option string;
  cp_stream : bool;
  cp_parallel_tool_calls : option bool   (* key present only with tools *)
}.

(** One fragment of a tool call inside a streamed delta. *)
Record ToolCallDelta : Type := mkToolCallDelta {
  tcd_id : option string;
  tcd_type : option string;
  tcd_name : option string;
  tcd_arguments : option string
}.

(** A streamed delta, [json.loads(chunk.choices[0].delta.json())]. *)
Record Delta : Type := mkDelta {
  d_role : option string;
  d_sender : option string;
  d_content : option string;
  d_function_call : option string;
  d_tool_calls : list (Z * ToolCallDelta)
}.

(** What the backend answers: a completion whose [choices[0].message] is the
    message, or an iterable of chunks. *)
Inductive Completion : Type :=
| ChatCompletion (message : Message)
| ChunkStream (chunks : list Delta).

(** A client with internal state [S]: each request returns or raises and
    leaves the client in a new state. *)
Definition Client (S : Type) : Type :=
  create_params -> S -> except Completion * S.

Inductive Event : Type :=
| EvDelim (delim : string)
| EvDelta (delta : Delta)
| EvResponse (response : Response).

(** ** The monad of the orchestrator: client state, the requests sent so far
    and the events yielded so far, with exceptions *)

Record World (S : Type) : Type := mkWorld {
  w_client : S;
  w_requests : list create_params;
  w_yielded : list Event
}.
Arguments mkWorld {S} _ _ _.
Arguments w_client {S} _.
Arguments w_requests {S} _.
Arguments w_yielded {S} _.

Definition M (S A : Type) : Type := World S -> except A * World S.

Definition ret {S A} (a : A) : M S A := fun w => (Return a, w).

Definition raise {S A} (e : Exception) : M S A := fun w => (Raise e, w).

Definition bind {S A B} (c : M S A) (k : A -> M S B) : M S B :=
  fun w =>
    match c w with
    | (Return a, w') => k a w'
    | (Raise e, w') => (Raise e, w')
    end.

Definition lift {S A} (c : except A) : M S A := fun w => (c, w).

Definition yield {S} (e : Event) : M S unit :=
  fun w => (Return tt, mkWorld (w_client w) (w_requests w) (w_yielded w ++ [e])).

Definition request {S} (client : Client S) (params : create_params) : M S Completion :=
  fun w =>
    let '(r, s) := client params (w_client w) in
    (r, mkWorld s (w_requests w ++ [params]) (w_yielded w)).

Declare Scope swarm_scope.
Delimit Scope swarm_scope with swarm.
Notation "'let*' x ':=' c 'in' k" := (bind c (fun x => k))
  (at level 10, x name, c at level 100, k at level 200, only parsing) : swarm_scope.
Local Open Scope swarm_scope.

Definition initial_world {S} (s : S) : World S := mkWorld s [] [].

(** ** [LocalModelClient] *)

(** [f"{msg['role']}: {msg['content']}"]; a [None] content formats as
    [None]. *)
Definition prompt_line (msg : Message) : string :=
  role msg +:+ ": " +:+ default "None" (content msg).

Definition newline : string := String "010"%char "".

Fixpoint join (sep : string) (l : list string) : string :=
  match l with
  | [] => ""
  | [x] => x
  | x :: rest => x +:+ sep +:+ join sep rest
  end.

(** [ollama.generate(model=..., prompt=...)['response']] is the parameter
    [ollama_generate]. The client keeps no state, ignores every keyword but
    [messages], and answers with a message of two keys. *)
Definition LocalModelClient (ollama_generate : string -> string -> except string)
    (model : string) : Client unit :=
  fun params s =>
    let prompt := join newline (map prompt_line (cp_messages params)) in
    (except_bind (ollama_generate model prompt) (fun response =>
       Return (ChatCompletion
                 (mkMessage "assistant" (Some response) None None None None None))),
     s).

(** ** [Swarm.get_chat_completion] *)

Definition truthy_str (s : option string) : bool :=
  match s with
  | Some s => negb (String.eqb s "")
  | None => false
  end.

Fixpoint remove_first (x : string) (l : list string) : list string :=
  match l with
  | [] => []
  | y :: l' => if String.eqb y x then l' else y :: remove_first x l'
  end.

(** The reserved parameter is taken out of the schema. *)
Definition hide_context (tool : ToolSchema) : ToolSchema :=
  mkToolSchema (schema_name tool) (schema_description tool)
    (delete __CTX_VARS_NAME__ (properties tool))
    (remove_first __CTX_VARS_NAME__ (required tool)).

Definition system_message (instructions : string) : Message :=
  mkMessage "system" (Some instructions) None None None None None.

Definition build_create_params `{E : Externals} (agent : Agent) (history : list Message)
    (ctx : dict) (model_override : option string) (stream : bool) : create_params :=
  let ctx' := mkDefaultdict (PyStr "") ctx in
  let instructions :=
    match agent_instructions agent with
    | InstrCallable f => f ctx'
    | InstrStr s => s
    end in
  let messages := system_message instructions :: history in
  let tools := map hide_context (map function_to_json (agent_functions agent)) in
  mkCreateParams
    (if truthy_str model_override then default "" model_override else agent_model agent)
    messages
    (match tools with [] => None | _ => Some tools end)
    (agent_tool_choice agent)
    stream
    (match tools with [] => None | _ => Some (agent_parallel_tool_calls agent) end).

Definition get_chat_completion `{E : Externals} {S} (client : Client S) (agent : Agent)
    (history : list Message) (ctx : dict) (model_override : option string)
    (stream : bool) : M S Completion :=
  request client (build_create_params agent history ctx model_override stream).

(** ** [Swarm.run] *)

(** The local variables of the turn loop. *)
Record RunState : Type := mkRunState {
  active_agent : Agent;
  history : list Message;
  run_context : dict
}.

(** How an iteration of the loop ends: by [break], or by reaching the end of
    the body or [continue]. *)
Inductive Flow : Type := Break | Next.

(** [not message.get("tool_calls")]: true for a missing key, [None] and the
    empty list. *)
Definition no_tool_calls (m : Message) : bool :=
  match tool_calls m with
  | None | Some [] => true
  | Some (_ :: _) => false
  end.

(** [completion["choices"][0]["message"]]; an iterable of chunks cannot be
    subscripted. *)
Definition choices_0_message (completion : Completion) : except Message :=
  match completion with
  | ChatCompletion message => Return message
  | ChunkStream _ => Raise (TypeError "object is not subscriptable")
  end.

Definition transfer_notice (a : Agent) : Message :=
  mkMessage "system" (Some ("Conversation transferred to " +:+ agent_name a))
            None None None None None.

(** The state after the tool calls of a turn were dispatched. *)
Definition after_dispatch `{E : Externals} (st : RunState) (message : Message)
    (partial_response : Response) : RunState :=
  let history := (history st ++ [message]) ++ messages partial_response in
  let ctx := update (run_context st) (context_variables partial_response) in
  match agent partial_response with
  | Some a =>
      if Agent_ne a (active_agent st)
      then mkRunState a (history ++ [transfer_notice a]) ctx
      else mkRunState (active_agent st) history ctx
  | None => mkRunState (active_agent st) history ctx
  end.

(** The body of [for _ in range(max_turns)]. *)
Definition run_turn `{E : Externals} {S} (client : Client S)
    (model_override : option string) (stream execute_tools : bool)
    (st : RunState) : M S (Flow * RunState) :=
  let* completion := get_chat_completion client (active_agent st) (history st)
                       (run_context st) model_override stream in
  let* message := lift (choices_0_message completion) in
  let message := set_sender message (agent_name (active_agent st)) in
  if no_tool_calls message || negb execute_tools
  then ret (Break, mkRunState (active_agent st) (history st ++ [message]) (run_context st))
  else
    let tool_calls := default [] (tool_calls message) in
    let* partial_response :=
      lift (handle_tool_calls tool_calls (agent_functions (active_agent st))
                              (run_context st)) in
    ret (Next, after_dispatch st message partial_response).

Fixpoint run_loop `{E : Externals} {S} (client : Client S)
    (model_override : option string) (stream execute_tools : bool)
    (turns : nat) (st : RunState) : M S RunState :=
  match turns with
  | O => ret st
  | Datatypes.S turns' =>
      let* r := run_turn client model_override stream execute_tools st in
      match r with
      | (Break, st') => ret st'
      | (Next, st') => run_loop client model_override stream execute_tools turns' st'
      end
  end.

(** [history[init_len:]] with the final agent and context. *)
Definition final_response (init_len : nat) (st : RunState) : Response :=
  mkResponse (drop init_len (history st)) (Some (active_agent st)) (run_context st).

(** [range(max_turns)] has [max_turns] elements, none when [max_turns] is
    negative. The deep copies are the values themselves. *)
Definition run `{E : Externals} {S} (client : Client S) (agent : Agent)
    (messages : list Message) (ctx : dict) (model_override : option string)
    (stream : bool) (max_turns : Z) (execute_tools : bool) : M S Response :=
  let init_len := length messages in
  let* st := run_loop client model_override stream execute_tools
               (Z.to_nat max_turns) (mkRunState agent messages ctx) in
  ret (final_response init_len st).

(** ** [Swarm.run_and_stream] *)

(** The message a turn of the streaming loop accumulates; [sm_tool_calls] is
    the [defaultdict] keyed by index, in insertion order. *)
Record StreamMessage : Type := mkStreamMessage {
  sm_content : option string;
  sm_sender : option string;
  sm_role : string;
  sm_function_call : option string;
  sm_tool_calls : list (Z * ChatCompletionMessageToolCall)
}.

Definition append_opt (acc : string) (s : option string) : string :=
  match s with
  | Some s => acc +:+ s
  | None => acc
  end.

Definition merge_tool_call (acc : ChatCompletionMessageToolCall) (d : ToolCallDelta)
  : ChatCompletionMessageToolCall :=
  mkToolCall (append_opt (tc_id acc) (tcd_id d))
    (mkFunction (append_opt (fn_arguments (tc_function acc)) (tcd_arguments d))
                (append_opt (fn_name (tc_function acc)) (tcd_name d)))
    (append_opt (tc_type acc) (tcd_type d)).

(** The value the [defaultdict] creates for a new index. *)
Definition empty_tool_call : ChatCompletionMessageToolCall :=
  mkToolCall "" (mkFunction "" "") "".

Fixpoint merge_at (acc : list (Z * ChatCompletionMessageToolCall)) (index : Z)
    (d : ToolCallDelta) : list (Z * ChatCompletionMessageToolCall) :=
  match acc with
  | [] => [(index, merge_tool_call empty_tool_call d)]
  | (i, tc) :: acc' =>
      if Z.eqb i index then (i, merge_tool_call tc d) :: acc'
      else (i, tc) :: merge_at acc' index d
  end.

(** Modelled from the spec: [merge_chunk] of [swarm/util.py] is not among the
    sources. For each field present in the delta: the content is appended;
    the tool calls are merged per index, their string fields concatenated;
    any other field overwrites. A field that is [None] is not present. *)
Definition merge_chunk (message : StreamMessage) (delta : Delta) : StreamMessage :=
  mkStreamMessage
    (match d_content delta with
     | Some s => Some (append_opt (default "" (sm_content message)) (Some s))
     | None => sm_content message
     end)
    (match d_sender delta with Some s => Some s | None => sm_sender message end)
    (default (sm_role message) (d_role delta))
    (match d_function_call delta with Some f => Some f | None => sm_function_call message end)
    (foldl (fun acc p => merge_at acc (fst p) (snd p))
           (sm_tool_calls message) (d_tool_calls delta)).

(** [delta["sender"] = active_agent.name] for an assistant delta. *)
Definition stamp_delta (delta : Delta) (name : string) : Delta :=
  if bool_decide (d_role delta = Some "assistant")
  then mkDelta (d_role delta) (Some name) (d_content delta)
               (d_function_call delta) (d_tool_calls delta)
  else delta.

(** [delta.pop("role", None); delta.pop("sender", None)]. *)
Definition pop_role_sender (delta : Delta) : Delta :=
  mkDelta None None (d_content delta) (d_function_call delta) (d_tool_calls delta).

(** The [for chunk in completion] loop: every delta is yielded, then merged. *)
Fixpoint consume_chunks {S} (active_name : string) (message : StreamMessage)
    (chunks : list Delta) : M S StreamMessage :=
  match chunks with
  | [] => ret message
  | chunk :: rest =>
      let delta := stamp_delta chunk active_name in
      let* _ := yield (EvDelta delta) in
      consume_chunks active_name (merge_chunk message (pop_role_sender delta)) rest
  end.

(** Iterating a completion that is a dictionary yields its keys, and a key
    has no attribute [choices]. *)
Definition iter_chunks (completion : Completion) : except (list Delta) :=
  match completion with
  | ChunkStream chunks => Return chunks
  | ChatCompletion _ => Raise (AttributeError "'str' object has no attribute 'choices'")
  end.

(** [list(message["tool_calls"].values())], replaced by [None] when empty. *)
Definition finish_message (message : StreamMessage) : Message :=
  let calls := map snd (sm_tool_calls message) in
  mkMessage (sm_role message) (sm_content message) (sm_sender message)
            (sm_function_call message)
            (match calls with [] => None | _ => Some calls end)
            None None.

(** The message a turn starts from; its sender is the name of the agent the
    run was started with. *)
Definition fresh_message (agent : Agent) : StreamMessage :=
  mkStreamMessage (Some "") (Some (agent_name agent)) "assistant" None [].

(** The state after the tool calls of a streamed turn were dispatched. *)
Definition stream_after_dispatch (st : RunState) (message : Message)
    (partial_response : Response) : RunState :=
  mkRunState (default (active_agent st) (agent partial_response))
             ((history st ++ [message]) ++ messages partial_response)
             (update (run_context st) (context_variables partial_response)).

(** The body of the [while] loop. *)
Definition stream_turn `{E : Externals} {S} (client : Client S) (agent : Agent)
    (model_override : option string) (execute_tools : bool)
    (st : RunState) : M S (Flow * RunState) :=
  let* completion := get_chat_completion client (active_agent st) (history st)
                       (run_context st) model_override true in
  let* _ := yield (EvDelim "start") in
  let* chunks := lift (iter_chunks completion) in
  let* message := consume_chunks (agent_name (active_agent st))
                                 (fresh_message agent) chunks in
  let* _ := yield (EvDelim "end") in
  let message := finish_message message in
  if no_tool_calls message || negb execute_tools
  then ret (Break, mkRunState (active_agent st) (history st ++ [message]) (run_context st))
  else
    let tool_calls := default [] (tool_calls message) in
    let* partial_response :=
      lift (handle_tool_calls tool_calls (agent_functions (active_agent st))
                              (run_context st)) in
    ret (Next, stream_after_dispatch st message partial_response).

(** [len(history) - init_len < max_turns]; [None] is [float("inf")]. *)
Definition below_max_turns (init_len : nat) (max_turns : option Z)
    (st : RunState) : bool :=
  match max_turns with
  | Some n => (Z.of_nat (length (history st)) - Z.of_nat init_len <? n)%Z
  | None => true
  end.

(** The [while] loop, run for at most [fuel] iterations; [None] when the loop
    is still running after them. *)
Fixpoint stream_loop `{E : Externals} {S} (client : Client S) (agent : Agent)
    (model_override : option string) (execute_tools : bool)
    (init_len : nat) (max_turns : option Z)
    (fuel : nat) (st : RunState) : M S (option RunState) :=
  if below_max_turns init_len max_turns st then
    match fuel with
    | O => ret None
    | Datatypes.S fuel' =>
        let* r := stream_turn client agent model_override execute_tools st in
        match r with
        | (Break, st') => ret (Some st')
        | (Next, st') =>
            stream_loop client agent model_override execute_tools
                        init_len max_turns fuel' st'
        end
    end
  else ret (Some st).

(** The generator run to its end: the events are in the world, the value is
    the [Response] of the final event, or [None] when [fuel] iterations did
    not end the loop. *)
Definition run_and_stream_fuel `{E : Externals} {S} (fuel : nat) (client : Client S)
    (agent : Agent) (messages : list Message) (ctx : dict)
    (model_override : option string) (max_turns : option Z)
    (execute_tools : bool) : M S (option Response) :=
  let init_len := length messages in
  let* r := stream_loop client agent model_override execute_tools init_len
              max_turns fuel (mkRunState agent messages ctx) in
  match r with
  | Some st =>
      let response := final_response init_len st in
      let* _ := yield (EvResponse response) in
      ret (Some response)
  | None => ret None
  end.

(** With a finite [max_turns], every iteration appends a message, so
    [max_turns] iterations are enough. *)
Definition run_and_stream `{E : Externals} {S} (client : Client S)
    (agent : Agent) (messages : list Message) (ctx : dict)
    (model_override : option string) (max_turns : Z)
    (execute_tools : bool) : M S (option Response) :=
  run_and_stream_fuel (Z.to_nat max_turns) client agent messages ctx
                      model_override (Some max_turns) execute_tools.

(** ** Reading a turn's dispatch call by call *)

(** The normalized [Result] of one tool call, [None] for a name that is not in
    the function map. *)
Definition normalized_result `{E : Externals} (functions : list AgentFunction)
    (ctx : dict) (tool_call : ChatCompletionMessageToolCall)
  : except (option Result) :=
  match function_map functions !! fn_name (tc_function tool_call) with
  | None => Return None
  | Some callee =>
      except_bind (invoke functions ctx tool_call callee) (fun r => Return (Some r))
  end.

Fixpoint normalized_results `{E : Externals} (functions : list AgentFunction)
    (ctx : dict) (tool_calls : list ChatCompletionMessageToolCall)
  : except (list (option Result)) :=
  match tool_calls with
  | [] => Return []
  | tool_call :: rest =>
      except_bind (normalized_result functions ctx tool_call) (fun r =>
      except_bind (normalized_results functions ctx rest) (fun rs =>
      Return (r :: rs)))
  end.

(** The agent of the earliest result that carries one. *)
Fixpoint earliest_agent (results : list (option Result)) : option Agent :=
  match results with
  | [] => None
  | Some r :: rest =>
      match result_agent r with
      | Some a => Some a
      | None => earliest_agent rest
      end
  | None :: rest => earliest_agent rest
  end.

(** The message a stream of chunks adds up to. *)
Definition accumulate (message : StreamMessage) (chunks : list Delta) : StreamMessage :=
  foldl (fun m d => merge_chunk m (pop_role_sender d)) message chunks.

(** The message of a completion that carries what the chunks carry: the
    accumulated message, without a sender. *)
Definition streamed_message (chunks : list Delta) : Message :=
  finish_message (accumulate (mkStreamMessage (Some "") None "assistant" None []) chunks).

(** A backend never answers a request that offers no tools with tool calls,
    and does answer it. *)
Definition answers_without_tool_calls {S} (client : Client S) : Prop :=
  forall params s, cp_tools params = None ->
    exists m s', client params s = (Return (ChatCompletion m), s')
                 /\ no_tool_calls m = true.

(** ** The turn as a function of the backend's answer *)

(** What a turn of [run] makes of the answer to its request. *)
Definition turn_outcome `{E : Externals} (execute_tools : bool) (st : RunState)
    (answer : except Completion) : except (Flow * RunState) :=
  except_bind answer (fun completion =>
  except_bind (choices_0_message completion) (fun message =>
  let message := set_sender message (agent_name (active_agent st)) in
  if no_tool_calls message || negb execute_tools
  then Return (Break, mkRunState (active_agent st) (history st ++ [message])
                                 (run_context st))
  else
    except_bind (handle_tool_calls (default [] (tool_calls message))
                   (agent_functions (active_agent st)) (run_context st))
      (fun partial_response =>
         Return (Next, after_dispatch st message partial_response)))).

(** What a turn of [run_and_stream] makes of the answer to its request. *)
Definition stream_turn_outcome `{E : Externals} (agent : Agent)
    (execute_tools : bool) (st : RunState)
    (answer : except Completion) : except (Flow * RunState) :=
  except_bind answer (fun completion =>
  except_bind (iter_chunks completion) (fun chunks =>
  let message := finish_message (accumulate (fresh_message agent) chunks) in
  if no_tool_calls message || negb execute_tools
  then Return (Break, mkRunState (active_agent st) (history st ++ [message])
                                 (run_context st))
  else
    except_bind (handle_tool_calls (default [] (tool_calls message))
                   (agent_functions (active_agent st)) (run_context st))
      (fun partial_response =>
         Return (Next, stream_after_dispatch st message partial_response)))).

Definition with_sender (m : StreamMessage) (s : option string) : StreamMessage :=
  mkStreamMessage (sm_content m) s (sm_role m) (sm_function_call m) (sm_tool_calls m).

(** ** Reading the aggregate of a turn key by key *)

(** The value the latest result that has the key [k] gives it. *)
Fixpoint latest_binding (k : string) (results : list (option Result))
  : option PyValue :=
  match results with
  | [] => None
  | o :: rest =>
      match latest_binding k rest with
      | Some v => Some v
      | None =>
          match o with
          | Some r => result_context_variables r !! k
          | None => None
          end
      end
  end.

(** Whether every character of a string is one of [' '] to ['~']. *)
Fixpoint printable_ascii (s : string) : bool :=
  match s with
  | EmptyString => true
  | String c s' =>
      Nat.leb 32 (nat_of_ascii c) && Nat.leb (nat_of_ascii c) 126
      && printable_ascii s'
  end.

(** Whether every character of a string is printable and is neither the
    quote nor the backslash. *)
Fixpoint json_plain (s : string) : bool :=
  match s with
  | EmptyString => true
  | String c s' =>
      Nat.leb 32 (nat_of_ascii c) && Nat.leb (nat_of_ascii c) 126
      && negb (Nat.eqb (nat_of_ascii c) 34) && negb (Nat.eqb (nat_of_ascii c) 92)
      && json_plain s'
  end.

(** The tool message a call leaves in the aggregate, given its normalized
    result: the value of the result, or the error for an unknown name. *)
Definition call_message (tool_call : ChatCompletionMessageToolCall)
    (result : option Result) : Message :=
  match result with
  | Some r =>
      tool_message tool_call (fn_name (tc_function tool_call)) (result_value r)
  | None => not_found_message tool_call
  end.

Fixpoint call_messages (tool_calls : list ChatCompletionMessageToolCall)
    (results : list (option Result)) : list Message :=
  match tool_calls, results with
  | tool_call :: tool_calls', r :: results' =>
      call_message tool_call r :: call_messages tool_calls' results'
  | _, _ => []
  end.

(** ** Concrete agents, tools and backends *)

Module Scenario.

Definition JSONDecodeError : Exception :=
  mkException "JSONDecodeError" "Expecting value".

(** A stand-in for the parameters: [json.loads] on the empty object only,
    a schema that lists every parameter as required, and agents compared by
    name. *)
#[export] Instance externals : Externals := {|
  json_loads := fun s =>
    if String.eqb s "{}" then Return (PyDict ∅) else Raise JSONDecodeError;
  function_to_json := fun f =>
    mkToolSchema (f_name f) ""
      (list_to_map (map (fun p => (p, PyDict {[ "type" := PyStr "string" ]}))
                        (parameters (f_function f))))
      (parameters (f_function f));
  Agent_ne := fun a b => negb (String.eqb (agent_name a) (agent_name b))
|}.

Definition call (id name : string) : ChatCompletionMessageToolCall :=
  mkToolCall id (mkFunction "{}" name) "function".

Definition assistant_says (text : string) : Message :=
  mkMessage "assistant" (Some text) None None None None None.

Definition assistant_calls (calls : list ChatCompletionMessageToolCall) : Message :=
  mkMessage "assistant" None None None (Some calls) None None.

Definition user_says (text : string) : Message :=
  mkMessage "user" (Some text) None None None None None.

(** An agent without tools, and a backend that asks for a tool all the
    same. *)
Definition lonely : Agent :=
  mkAgent "Lonely" "deepseek-r1:1.5b" (InstrStr "You are helpful.") [] None true.

Definition insisting_client : Client unit :=
  fun _ s => (Return (ChatCompletion (assistant_calls [call "c1" "missing_tool"])), s).

(** The default client over a model that always answers [hello]. *)
Definition local_client : Client unit :=
  LocalModelClient (fun _ _ => Return "hello") "deepseek-r1:1.5b".

(** Handoffs: [transfer] returns agent B. *)
Definition agent_B : Agent :=
  mkAgent "B" "deepseek-r1:1.5b" (InstrStr "You are B.") [] None true.

Definition agent_X : Agent :=
  mkAgent "X" "deepseek-r1:1.5b" (InstrStr "You are X.") [] None true.

Definition agent_Y : Agent :=
  mkAgent "Y" "deepseek-r1:1.5b" (InstrStr "You are Y.") [] None true.

Definition returns (r : RawResult) : PyFunction :=
  mkPyFunction [] 0 (fun _ => Return r).

Definition transfer : AgentFunction :=
  mkAgentFunction "transfer" (returns (RAgent agent_B)).

Definition agent_A : Agent :=
  mkAgent "A" "deepseek-r1:1.5b" (InstrStr "You are A.") [transfer] None true.

Definition to_x : AgentFunction := mkAgentFunction "to_x" (returns (RAgent agent_X)).
Definition to_y : AgentFunction := mkAgentFunction "to_y" (returns (RAgent agent_Y)).

(** A backend that asks for [transfer] first and answers in words
    afterwards; its state counts the requests. *)
Definition scripted_client : Client nat :=
  fun _ n =>
    (Return (ChatCompletion
               (match n with
                | O => assistant_calls [call "c1" "transfer"]
                | _ => assistant_says "B speaking"
                end)),
     Datatypes.S n).

(** A tool that writes into the context through its [Result]. *)
Definition set_ab : AgentFunction :=
  mkAgentFunction "set_ab"
    (returns (RResult (mkResult "done" None
                         {[ "a" := PyInt 2; "b" := PyInt 3 ]}))).

(** [def noop(): return "ok"], an agent that has it and a streaming backend
    that asks for it in every turn, in two chunks. *)
Definition noop : AgentFunction := mkAgentFunction "noop" (returns (RStr "ok")).

Definition worker : Agent :=
  mkAgent "Worker" "deepseek-r1:1.5b" (InstrStr "You work.") [noop] None true.

Definition noop_chunks : list Delta :=
  [ mkDelta (Some "assistant") None None None
      [(0%Z, mkToolCallDelta (Some "c1") (Some "function") (Some "noop") (Some "{"))];
    mkDelta None None None None
      [(0%Z, mkToolCallDelta None None None (Some "}"))] ].

Definition streaming_client : Client unit :=
  fun _ s => (Return (ChunkStream noop_chunks), s).

(** The backend that answers with the same completions, not streamed. *)
Definition unstreamed_client : Client unit :=
  fun _ s => (Return (ChatCompletion (streamed_message noop_chunks)), s).

(** A streaming backend that answers in words. *)
Definition hello_chunks : list Delta :=
  [ mkDelta (Some "assistant") None (Some "He") None [];
    mkDelta None None (Some "llo") None [] ].

Definition talking_stream : Client unit :=
  fun _ s => (Return (ChunkStream hello_chunks), s).

Definition talking_client : Client unit :=
  fun _ s => (Return (ChatCompletion (streamed_message hello_chunks)), s).

(** [def get_time(): context_variables = {}; return "12:00"]: the name is a
    local variable of the function, not a parameter. *)
Definition get_time : AgentFunction :=
  mkAgentFunction "get_time"
    (mkPyFunction ["context_variables"] 0 (fun _ => Return (RStr "12:00"))).

(** [def greet(context_variables): ...], which declares the parameter. *)
Definition greet : AgentFunction :=
  mkAgentFunction "greet"
    (mkPyFunction ["context_variables"] 1
       (fun kwargs =>
          match kwargs !! "context_variables" with
          | Some (PyDict d) =>
              match d !! "user" with
              | Some (PyStr u) => Return (RStr ("Hello " +:+ u))
              | _ => Return (RStr "Hello")
              end
          | _ => Raise (TypeError "missing 1 required positional argument")
          end)).

(** The scripted backend, streaming. *)
Definition transfer_chunks : list Delta :=
  [ mkDelta (Some "assistant") None None None
      [(0%Z, mkToolCallDelta (Some "c1") (Some "function") (Some "transfer")
               (Some "{}"))] ].

Definition scripted_stream : Client nat :=
  fun _ n =>
    (Return (ChunkStream
               (match n with
                | O => transfer_chunks
                | _ => hello_chunks
                end)),
     Datatypes.S n).

Definition scripted_unstreamed : Client nat :=
  fun _ n =>
    (Return (ChatCompletion
               (streamed_message
                  (match n with
                   | O => transfer_chunks
                   | _ => hello_chunks
                   end))),
     Datatypes.S n).

(** A tool that sets the key [a] alone. *)
Definition set_a : AgentFunction :=
  mkAgentFunction "set_a"
    (returns (RResult (mkResult "done" None {[ "a" := PyInt 1 ]}))).

(** The parameters again, with a [json.loads] that knows the empty array
    too. *)
Definition externals_arrays : Externals := {|
  json_loads := fun s =>
    if String.eqb s "{}" then Return (PyDict ∅)
    else if String.eqb s "[]" then Return (PyList [])
    else Raise JSONDecodeError;
  function_to_json := function_to_json (Externals := externals);
  Agent_ne := Agent_ne (Externals := externals)
|}.

(** An agent whose instructions are a function of the context. *)
Definition greeting_for (user : PyValue) : string :=
  match user with
  | PyStr u => "Help the user " +:+ u +:+ "."
  | _ => "Help the user."
  end.

Definition greeter : Agent :=
  mkAgent "Greeter" "deepseek-r1:1.5b"
    (InstrCallable (fun d => greeting_for (dd_get d "user"))) [greet] None true.

(** A backend that is down. *)
Definition failing_client : Client unit :=
  fun _ s => (Raise (mkException "ConnectionError" "backend down"), s).

(** An agent that has the tool [set_ab], and a backend that asks for it. *)
Definition setter : Agent :=
  mkAgent "Setter" "deepseek-r1:1.5b" (InstrStr "You set.") [set_ab] None true.

Definition setting_client : Client unit :=
  fun _ s => (Return (ChatCompletion (assistant_calls [call "c1" "set_ab"])), s).

(** A call whose payload is not JSON. *)
Definition broken_call (id name : string) : ChatCompletionMessageToolCall :=
  mkToolCall id (mkFunction "{oops" name) "function".

(** Two entries of one name: the first declares the context parameter, the
    second has no parameter. *)
Definition greet_again : AgentFunction :=
  mkAgentFunction "greet" (returns (RStr "Hello again")).

(** An object whose [__str__] raises and whose class defines no
    [__format__]. *)
Definition unprintable : PyObject :=
  mkPyObject (Raise (mkException "ValueError" "boom")) None.

End Scenario.

(** * Properties *)

(** ** The result normalizer *)

Lemma handle_function_result_Result (r : Result) :
  handle_function_result (RResult r) = Return r.
Proof. reflexivity. Qed.

Lemma handle_function_result_Agent (a : Agent) :
  handle_function_result (RAgent a)
  = Return (mkResult (json_dumps_assistant (agent_name a)) (Some a) ∅).
Proof. reflexivity. Qed.

Lemma handle_function_result_str (s : string) :
  handle_function_result (RStr s) = Return (mkResult s None ∅).
Proof. reflexivity. Qed.

Example handle_function_result_ok :
  handle_function_result (RStr "ok") = Return (mkResult "ok" None ∅).
Proof. reflexivity. Qed.

Example handle_function_result_agent_B :
  option_map result_value
    (match handle_function_result (RAgent Scenario.agent_B) with
     | Return r => Some r
     | Raise _ => None
     end)
  = Some ("{" +:+ dquote +:+ "assistant" +:+ dquote +:+ ": "
              +:+ dquote +:+ "B" +:+ dquote +:+ "}").
Proof. reflexivity. Qed.

Lemma handle_function_result_printable (o : PyObject) (s : string) :
  py_str o = Return s ->
  handle_function_result (RObject o) = Return (mkResult s None ∅).
Proof. intros Hs. simpl. rewrite Hs. reflexivity. Qed.

(** The descriptive [TypeError] is reached only by an object that can be
    formatted although [str] fails on it. *)
Lemma handle_function_result_cast_error (o : PyObject) (e : Exception) (shown : string) :
  py_str o = Raise e ->
  py_format o = Return shown ->
  handle_function_result (RObject o)
  = Raise (TypeError (cast_error_message shown e)).
Proof. intros Hs Hf. simpl. rewrite Hs, Hf. reflexivity. Qed.

(** Without a [__format__] of its own, the object's [str] is called again by
    the f-string and its exception is the one that leaves the function. *)
Lemma handle_function_result_default_format (e : Exception) :
  handle_function_result (RObject (mkPyObject (Raise e) None)) = Raise e.
Proof. reflexivity. Qed.

(** C6, at the failing input: a tool returns an object whose [__str__] raises
    [ValueError("boom")] and whose class has no [__format__]. The normalizer
    does not raise the [TypeError] that names the value and the original
    error: building that message formats the value, which raises the
    [ValueError] again, and this is what the caller receives. *)
Theorem handle_function_result_unprintable :
  handle_function_result (RObject Scenario.unprintable)
  = Raise (mkException "ValueError" "boom")
  /\ (forall msg, handle_function_result (RObject Scenario.unprintable)
                  <> Raise (TypeError msg)).
Proof.
  split; [reflexivity |].
  intros msg Heq. simpl in Heq. unfold TypeError in Heq. discriminate Heq.
Qed.

(** ** The function map *)

Section Dispatch.
Context `{E : Externals}.

Lemma function_map_foldl_None (functions : list AgentFunction)
    (m : gmap string PyFunction) (name : string) :
  foldl (fun m f => <[f_name f := f_function f]> m) m functions !! name = None
  <-> m !! name = None /\ name ∉ map f_name functions.
Proof.
  revert m. induction functions as [|f functions IH]; intros m; simpl.
  - split; [intros Hm; split; [exact Hm | apply not_elem_of_nil] | tauto].
  - rewrite IH, lookup_insert_None, not_elem_of_cons. split.
    + intros [[Hm Hne] Hrest]. split; [exact Hm |]. split; [congruence | exact Hrest].
    + intros [Hm [Hne Hrest]]. split; [split; [exact Hm | congruence] | exact Hrest].
Qed.

(** [name not in function_map] says that no function has that name. *)
Lemma function_map_None (functions : list AgentFunction) (name : string) :
  function_map functions !! name = None <-> name ∉ map f_name functions.
Proof.
  unfold function_map. rewrite function_map_foldl_None, lookup_empty. tauto.
Qed.

Lemma handle_tool_calls_from_cons (functions : list AgentFunction) (ctx : dict)
    (p : Response) (tc : ChatCompletionMessageToolCall)
    (rest : list ChatCompletionMessageToolCall) :
  handle_tool_calls_from functions ctx p (tc :: rest)
  = except_bind (handle_tool_call functions ctx p tc)
      (fun p' => handle_tool_calls_from functions ctx p' rest).
Proof. reflexivity. Qed.

End Dispatch.

Example unknown_tool_missing_tool :
  handle_tool_calls (E := Scenario.externals) [Scenario.call "c1" "missing_tool"] [Scenario.noop] ∅
  = Return (mkResponse
              [mkMessage "tool" (Some "Error: Tool missing_tool not found.")
                         None None None (Some "c1") (Some "missing_tool")]
              None ∅).
Proof. reflexivity. Qed.

(** ** Injection of the context *)

Lemma injects_context_spec (functions : list AgentFunction) (name : string) :
  injects_context functions name = true
  <-> exists fd, func_def functions name = Some fd
                 /\ __CTX_VARS_NAME__ ∈ co_varnames (f_function fd).
Proof.
  unfold injects_context. destruct (func_def functions name) as [fd|].
  - rewrite bool_decide_eq_true. split.
    + intros Hin. exists fd. split; [reflexivity | exact Hin].
    + intros [fd' [Heq Hin]]. injection Heq as ->. exact Hin.
  - split; [discriminate |]. intros [fd [Heq _]]. discriminate Heq.
Qed.

(** For a function without local variables whose name is that of no other
    function before it, the test is the one on the declared parameters. *)
Lemma injects_context_declared (functions : list AgentFunction) (fd : AgentFunction) :
  func_def functions (f_name fd) = Some fd ->
  co_varnames (f_function fd) = parameters (f_function fd) ->
  injects_context functions (f_name fd) = true
  <-> __CTX_VARS_NAME__ ∈ parameters (f_function fd).
Proof.
  intros Hfd Hnames. unfold injects_context. rewrite Hfd, Hnames.
  apply bool_decide_eq_true.
Qed.

(** C9, at the failing input: [get_time] declares no parameter and has a local
    variable named [context_variables]. The test on [co_varnames] finds the
    name, the context is injected, and the call raises [TypeError] for the
    unexpected keyword instead of being made with the payload alone. *)
Theorem handle_tool_calls_injects_for_local_variable (ctx : dict) :
  (__CTX_VARS_NAME__ ∉ parameters (f_function Scenario.get_time))
  /\ call_kwargs (E := Scenario.externals) [Scenario.get_time] ctx
       (Scenario.call "c1" "get_time")
     = Return {[ __CTX_VARS_NAME__ := PyDict ctx ]}
  /\ handle_tool_calls (E := Scenario.externals)
       [Scenario.call "c1" "get_time"] [Scenario.get_time] ctx
     = Raise (TypeError "got an unexpected keyword argument 'context_variables'").
Proof.
  split; [| split].
  - simpl. apply not_elem_of_nil.
  - reflexivity.
  - reflexivity.
Qed.

(** A function that declares the parameter receives the context. *)
Example greet_receives_context :
  handle_tool_calls (E := Scenario.externals)
    [Scenario.call "c1" "greet"] [Scenario.greet] {[ "user" := PyStr "Ann" ]}
  = Return (mkResponse
              [mkMessage "tool" (Some "Hello Ann") None None None
                         (Some "c1") (Some "greet")]
              None ∅).
Proof. reflexivity. Qed.

(** ** Handoff and context within a turn *)

Section Aggregate.
Context `{E : Externals}.

Lemma update_lookup (base delta : dict) (k : string) :
  update base delta !! k
  = match delta !! k with Some v => Some v | None => base !! k end.
Proof.
  unfold update. rewrite lookup_union.
  destruct (delta !! k), (base !! k); reflexivity.
Qed.

Lemma handle_tool_call_found (functions : list AgentFunction) (ctx : dict)
    (p : Response) (tc : ChatCompletionMessageToolCall)
    (callee : PyFunction) (r : Result) :
  function_map functions !! fn_name (tc_function tc) = Some callee ->
  invoke functions ctx tc callee = Return r ->
  handle_tool_call functions ctx p tc
  = Return (mkResponse
              (messages p ++ [tool_message tc (fn_name (tc_function tc))
                                           (result_value r)])
              (first_wins (agent p) (result_agent r))
              (update (context_variables p) (result_context_variables r))).
Proof.
  intros Hmap Hinv. unfold handle_tool_call. rewrite Hmap, Hinv. reflexivity.
Qed.

Lemma handle_tool_calls_from_earliest (functions : list AgentFunction) (ctx : dict)
    (tcs : list ChatCompletionMessageToolCall) :
  forall (p0 : Response) (rs : list (option Result)),
    normalized_results functions ctx tcs = Return rs ->
    exists p, handle_tool_calls_from functions ctx p0 tcs = Return p
              /\ agent p = match agent p0 with
                           | Some a => Some a
                           | None => earliest_agent rs
                           end.
Proof.
  induction tcs as [|tc tcs IH]; intros p0 rs Hrs; simpl in Hrs.
  - injection Hrs as <-. exists p0. split; [reflexivity |].
    simpl. destruct (agent p0); reflexivity.
  - unfold normalized_result in Hrs.
    destruct (function_map functions !! fn_name (tc_function tc)) as [callee|] eqn:Hmap.
    + destruct (invoke functions ctx tc callee) as [r|e] eqn:Hinv; simpl in Hrs;
        [| discriminate Hrs].
      destruct (normalized_results functions ctx tcs) as [rs'|e] eqn:Hrest;
        simpl in Hrs; [| discriminate Hrs].
      injection Hrs as <-.
      rewrite handle_tool_calls_from_cons,
        (handle_tool_call_found _ _ p0 _ _ _ Hmap Hinv). simpl.
      destruct (IH (mkResponse
                      (messages p0 ++ [tool_message tc (fn_name (tc_function tc))
                                                    (result_value r)])
                      (first_wins (agent p0) (result_agent r))
                      (update (context_variables p0) (result_context_variables r)))
                   rs' eq_refl) as [p [Hp Hagent]].
      exists p. split; [exact Hp |]. rewrite Hagent. simpl.
      destruct (agent p0), (result_agent r); reflexivity.
    + simpl in Hrs.
      destruct (normalized_results functions ctx tcs) as [rs'|e] eqn:Hrest;
        simpl in Hrs; [| discriminate Hrs].
      injection Hrs as <-.
      rewrite handle_tool_calls_from_cons. unfold handle_tool_call at 1.
      rewrite Hmap. simpl.
      destruct (IH (mkResponse (messages p0 ++ [not_found_message tc]) (agent p0)
                               (context_variables p0)) rs' eq_refl)
        as [p [Hp Hagent]].
      exists p. split; [exact Hp |]. exact Hagent.
Qed.

(** C3: when every call of the turn is carried out, the dispatcher returns
    an aggregate whose agent is the one of the earliest call with a
    normalized [Result] that carries an agent; what later calls return as
    agent is not recorded. *)
Theorem handle_tool_calls_first_agent_wins (functions : list AgentFunction)
    (ctx : dict) (tcs : list ChatCompletionMessageToolCall)
    (rs : list (option Result)) :
  normalized_results functions ctx tcs = Return rs ->
  exists p, handle_tool_calls tcs functions ctx = Return p
            /\ agent p = earliest_agent rs.
Proof.
  intros Hrs. unfold handle_tool_calls.
  destruct (handle_tool_calls_from_earliest functions ctx tcs
              (mkResponse [] None ∅) rs Hrs) as [p [Hp Hagent]].
  exists p. split; [exact Hp | exact Hagent].
Qed.

End Aggregate.

Example handoff_X_then_Y :
  option_map agent
    (match handle_tool_calls (E := Scenario.externals)
             [Scenario.call "c1" "to_x"; Scenario.call "c2" "to_y"]
             [Scenario.to_x; Scenario.to_y] ∅ with
     | Return p => Some p
     | Raise _ => None
     end)
  = Some (Some Scenario.agent_X).
Proof. reflexivity. Qed.

Lemma handle_tool_calls_first_agent_wins_witness :
  normalized_results (E := Scenario.externals) [Scenario.to_x; Scenario.to_y] ∅
    [Scenario.call "c1" "to_x"; Scenario.call "c2" "to_y"]
  = Return [Some (mkResult (json_dumps_assistant "X") (Some Scenario.agent_X) ∅);
            Some (mkResult (json_dumps_assistant "Y") (Some Scenario.agent_Y) ∅)]
  /\ exists p,
       handle_tool_calls (E := Scenario.externals)
         [Scenario.call "c1" "to_x"; Scenario.call "c2" "to_y"]
         [Scenario.to_x; Scenario.to_y] ∅ = Return p
       /\ agent p = Some Scenario.agent_X.
Proof.
  split; [reflexivity |].
  exact (handle_tool_calls_first_agent_wins (E := Scenario.externals)
           [Scenario.to_x; Scenario.to_y] ∅
           [Scenario.call "c1" "to_x"; Scenario.call "c2" "to_y"]
           [Some (mkResult (json_dumps_assistant "X") (Some Scenario.agent_X) ∅);
            Some (mkResult (json_dumps_assistant "Y") (Some Scenario.agent_Y) ∅)]
           eq_refl).
Defined.

(** ** The turn loop of [run] *)

Section Run.
Context `{E : Externals} {St : Type} (client : Client St).

Lemma run_turn_eq (mo : option string) (stream et : bool) (st : RunState)
    (w : World St) :
  run_turn client mo stream et st w
  = (turn_outcome et st
       (fst (client (build_create_params (active_agent st) (history st)
                       (run_context st) mo stream) (w_client w))),
     mkWorld
       (snd (client (build_create_params (active_agent st) (history st)
                       (run_context st) mo stream) (w_client w)))
       (w_requests w ++ [build_create_params (active_agent st) (history st)
                           (run_context st) mo stream])
       (w_yielded w)).
Proof.
  unfold run_turn, turn_outcome, get_chat_completion, request, bind, lift, ret.
  destruct (client _ (w_client w)) as [[c|e] s']; simpl; [| reflexivity].
  destruct (choices_0_message c) as [m|e]; simpl; [| reflexivity].
  destruct (no_tool_calls _ || negb et); [reflexivity |].
  destruct (handle_tool_calls _ _ _); reflexivity.
Qed.

Lemma run_loop_S (mo : option string) (stream et : bool) (turns : nat)
    (st : RunState) (w : World St) :
  run_loop client mo stream et (Datatypes.S turns) st w
  = match run_turn client mo stream et st w with
    | (Return (Break, st'), w') => (Return st', w')
    | (Return (Next, st'), w') => run_loop client mo stream et turns st' w'
    | (Raise e, w') => (Raise e, w')
    end.
Proof.
  simpl. unfold bind.
  destruct (run_turn client mo stream et st w) as [[[[|] st']|e] w']; reflexivity.
Qed.

(** Every turn sends one request, whatever becomes of it. *)
Lemma run_loop_requests (mo : option string) (stream et : bool) (turns : nat) :
  forall (st : RunState) (w : World St),
    exists l, w_requests (snd (run_loop client mo stream et turns st w))
              = w_requests w ++ l
              /\ length l <= turns.
Proof.
  induction turns as [|turns IH]; intros st w.
  - exists []. simpl. rewrite app_nil_r. split; [reflexivity | lia].
  - rewrite run_loop_S, run_turn_eq.
    set (params := build_create_params _ _ _ _ _).
    destruct (turn_outcome et st _) as [[[|] st']|e].
    + exists [params]. simpl. split; [reflexivity | lia].
    + destruct (IH st' (mkWorld (snd (client params (w_client w)))
                                (w_requests w ++ [params]) (w_yielded w)))
        as [l [Hl Hlen]].
      exists (params :: l). rewrite Hl. simpl.
      rewrite <- app_assoc. simpl. split; [reflexivity | lia].
    + exists [params]. simpl. split; [reflexivity | lia].
Qed.

Lemma run_eq (agent : Agent) (messages : list Message) (ctx : dict)
    (mo : option string) (stream : bool) (max_turns : Z) (et : bool)
    (w : World St) :
  run client agent messages ctx mo stream max_turns et w
  = match run_loop client mo stream et (Z.to_nat max_turns)
            (mkRunState agent messages ctx) w with
    | (Return st, w') => (Return (final_response (length messages) st), w')
    | (Raise e, w') => (Raise e, w')
    end.
Proof.
  unfold run, bind, ret.
  destruct (run_loop _ _ _ _ _ _ w) as [[st|e] w']; reflexivity.
Qed.

(** C10: with [max_turns = 0] no request is sent, nothing is yielded and the
    client is left alone; the response has no messages, the agent that was
    passed in and the context that was passed in. *)
Theorem run_zero_turns (agent : Agent) (messages : list Message) (ctx : dict)
    (mo : option string) (stream et : bool) (w : World St) :
  run client agent messages ctx mo stream 0 et w
  = (Return (mkResponse [] (Some agent) ctx), w).
Proof.
  rewrite run_eq. simpl. unfold ret, final_response. simpl.
  rewrite drop_all. reflexivity.
Qed.

(** C2: a run that starts with no request sent ends, by a response or by an
    exception, with at most [max_turns] requests sent; for a negative
    [max_turns] the range is empty and none is sent. *)
Theorem run_requests_at_most_max_turns (agent : Agent) (messages : list Message)
    (ctx : dict) (mo : option string) (stream : bool) (max_turns : Z)
    (et : bool) (s : St) :
  (Z.of_nat (length (w_requests
                       (snd (run client agent messages ctx mo stream max_turns et
                                 (initial_world s)))))
   <= Z.max 0 max_turns)%Z.
Proof.
  rewrite run_eq.
  destruct (run_loop_requests mo stream et (Z.to_nat max_turns)
              (mkRunState agent messages ctx) (initial_world s)) as [l [Hl Hlen]].
  destruct (run_loop _ _ _ _ _ _ _) as [[st|e] w']; simpl in *;
    rewrite Hl; lia.
Qed.

Lemma no_tool_calls_set_sender (m : Message) (name : string) :
  no_tool_calls (set_sender m name) = no_tool_calls m.
Proof. reflexivity. Qed.

Lemma build_create_params_no_tools (agent : Agent) (messages : list Message)
    (ctx : dict) (mo : option string) (stream : bool) :
  agent_functions agent = [] ->
  cp_tools (build_create_params agent messages ctx mo stream) = None.
Proof. intros Hnone. unfold build_create_params. rewrite Hnone. reflexivity. Qed.

(** A turn whose message carries no tool calls is the last one. *)
Lemma run_single_turn (agent : Agent) (messages : list Message) (ctx : dict)
    (mo : option string) (stream : bool) (max_turns : Z) (et : bool)
    (w : World St) (m : Message) (s' : St) :
  (0 < max_turns)%Z ->
  client (build_create_params agent messages ctx mo stream) (w_client w)
  = (Return (ChatCompletion m), s') ->
  no_tool_calls m = true \/ et = false ->
  run client agent messages ctx mo stream max_turns et w
  = (Return (mkResponse [set_sender m (agent_name agent)] (Some agent) ctx),
     mkWorld s' (w_requests w ++ [build_create_params agent messages ctx mo stream])
             (w_yielded w)).
Proof.
  intros Hpos Hanswer Hlast. rewrite run_eq.
  destruct (Z.to_nat max_turns) as [|turns] eqn:Hturns; [lia |].
  rewrite run_loop_S, run_turn_eq. simpl. rewrite Hanswer. simpl.
  rewrite no_tool_calls_set_sender.
  assert (Hcond : no_tool_calls m || negb et = true)
    by (destruct Hlast as [-> | ->]; [reflexivity | apply orb_true_r]).
  rewrite Hcond. unfold final_response. simpl.
  rewrite drop_app_length. reflexivity.
Qed.

(** C1, amended: for an agent without functions and [max_turns > 0], [run]
    over a backend that answers a request offering no tools with a message
    without tool calls sends exactly one request and returns a response with
    exactly one message, whose sender is the agent's name. *)
Theorem run_no_tools_one_completion (a : Agent) (seed : list Message)
    (ctx : dict) (mo : option string) (stream : bool) (max_turns : Z)
    (et : bool) (s : St) :
  agent_functions a = [] ->
  (0 < max_turns)%Z ->
  answers_without_tool_calls client ->
  exists r w,
    run client a seed ctx mo stream max_turns et (initial_world s) = (Return r, w)
    /\ length (w_requests w) = 1
    /\ length (messages r) = 1
    /\ (exists m, messages r = [m] /\ sender m = Some (agent_name a))
    /\ agent r = Some a
    /\ context_variables r = ctx.
Proof.
  intros Hnone Hpos Hclient.
  destruct (Hclient (build_create_params a seed ctx mo stream) s
              (build_create_params_no_tools a seed ctx mo stream Hnone))
    as [m [s' [Hanswer Hcalls]]].
  eexists. eexists. split.
  - apply (run_single_turn a seed ctx mo stream max_turns et (initial_world s) m s');
      [exact Hpos | exact Hanswer | left; exact Hcalls].
  - simpl. repeat split. exists (set_sender m (agent_name a)). split; reflexivity.
Qed.

(** C7: when the dispatch of a turn's tool calls returns an agent that
    differs from the active one, the turn ends with that agent active and
    with the history extended by the turn's message, the tool messages and a
    system message [Conversation transferred to <name>], and the loop goes
    on with the turns that remain, one fewer than before: nothing between
    the dispatch and the next turn's request looks at the message again. *)
Theorem run_agent_switch (mo : option string) (stream : bool) (turns : nat)
    (st : RunState) (w : World St) (m : Message) (s' : St) (p : Response)
    (b : Agent) :
  client (build_create_params (active_agent st) (history st) (run_context st)
            mo stream) (w_client w)
  = (Return (ChatCompletion m), s') ->
  no_tool_calls m = false ->
  handle_tool_calls (default [] (tool_calls m))
    (agent_functions (active_agent st)) (run_context st) = Return p ->
  agent p = Some b ->
  Agent_ne b (active_agent st) = true ->
  run_loop client mo stream true (Datatypes.S turns) st w
  = run_loop client mo stream true turns
      (mkRunState b
         (((history st ++ [set_sender m (agent_name (active_agent st))])
             ++ messages p)
            ++ [mkMessage "system"
                  (Some ("Conversation transferred to " +:+ agent_name b))
                  None None None None None])
         (update (run_context st) (context_variables p)))
      (mkWorld s'
         (w_requests w ++ [build_create_params (active_agent st) (history st)
                             (run_context st) mo stream])
         (w_yielded w)).
Proof.
  intros Hanswer Hcalls Hdispatch Hagent Hne.
  rewrite run_loop_S, run_turn_eq, Hanswer. simpl.
  rewrite no_tool_calls_set_sender, Hcalls. simpl.
  rewrite Hdispatch. simpl.
  unfold after_dispatch. rewrite Hagent, Hne. reflexivity.
Qed.

End Run.

(** The default client answers every request with a message that has no tool
    calls, as long as the model answers. *)
Lemma LocalModelClient_answers_without_tool_calls
    (ollama_generate : string -> string -> except string) (model : string) :
  (forall m prompt, exists response, ollama_generate m prompt = Return response) ->
  answers_without_tool_calls (LocalModelClient ollama_generate model).
Proof.
  intros Htotal params s _. unfold LocalModelClient.
  destruct (Htotal model (join newline (map prompt_line (cp_messages params))))
    as [response ->].
  eexists. exists s. split; reflexivity.
Qed.

(** C1, as stated, fails: the agent has no functions and [max_turns] is 2,
    and over a backend that asks for a tool in every answer [run] sends two
    requests and returns four messages, the two answers and the two error
    messages of the dispatcher. *)
Lemma run_no_tools_counterexample :
  agent_functions Scenario.lonely = []
  /\ (0 < 2)%Z
  /\ exists r w,
       run (E := Scenario.externals) Scenario.insisting_client Scenario.lonely
           [] ∅ None false 2 true (initial_world tt) = (Return r, w)
       /\ length (w_requests w) = 2
       /\ length (messages r) = 4
       /\ map content (messages r)
          = [None; Some "Error: Tool missing_tool not found.";
             None; Some "Error: Tool missing_tool not found."].
Proof.
  split; [reflexivity |]. split; [lia |].
  eexists. eexists. split; [reflexivity |].
  repeat split.
Qed.

Lemma run_no_tools_one_completion_witness :
  agent_functions Scenario.lonely = []
  /\ (0 < 10)%Z
  /\ exists r w,
       run (E := Scenario.externals) Scenario.local_client Scenario.lonely
           [Scenario.user_says "hi"] ∅ None false 10 true (initial_world tt)
       = (Return r, w)
       /\ length (w_requests w) = 1
       /\ length (messages r) = 1.
Proof.
  assert (Hpos : (0 < 10)%Z) by lia.
  assert (Hclient : answers_without_tool_calls Scenario.local_client).
  { apply LocalModelClient_answers_without_tool_calls.
    intros m prompt. exists "hello". reflexivity. }
  split; [reflexivity |]. split; [exact Hpos |].
  destruct (run_no_tools_one_completion (E := Scenario.externals)
              Scenario.local_client Scenario.lonely [Scenario.user_says "hi"]
              ∅ None false 10 true tt eq_refl Hpos Hclient)
    as [r [w [Hrun [Hreq [Hlen _]]]]].
  exists r, w. split; [exact Hrun |]. split; [exact Hreq | exact Hlen].
Defined.

Lemma run_agent_switch_witness :
  run_loop (E := Scenario.externals) Scenario.scripted_client None false true 3
    (mkRunState Scenario.agent_A [Scenario.user_says "hi"] ∅) (initial_world 0)
  = run_loop (E := Scenario.externals) Scenario.scripted_client None false true 2
      (mkRunState Scenario.agent_B
         [Scenario.user_says "hi";
          set_sender (Scenario.assistant_calls [Scenario.call "c1" "transfer"]) "A";
          mkMessage "tool" (Some (json_dumps_assistant "B")) None None None
                    (Some "c1") (Some "transfer");
          mkMessage "system" (Some "Conversation transferred to B")
                    None None None None None]
         ∅)
      (mkWorld 1
         [build_create_params (E := Scenario.externals) Scenario.agent_A
            [Scenario.user_says "hi"] ∅ None false]
         []).
Proof.
  exact (run_agent_switch (E := Scenario.externals) Scenario.scripted_client
           None false 2
           (mkRunState Scenario.agent_A [Scenario.user_says "hi"] ∅)
           (initial_world 0)
           (Scenario.assistant_calls [Scenario.call "c1" "transfer"]) 1
           (mkResponse
              [mkMessage "tool" (Some (json_dumps_assistant "B")) None None None
                         (Some "c1") (Some "transfer")]
              (Some Scenario.agent_B) ∅)
           Scenario.agent_B eq_refl eq_refl eq_refl eq_refl eq_refl).
Defined.

(** The end-to-end scenario: agent A has the tool [transfer], which returns
    agent B; one user message, [max_turns = 3]. *)
Example run_transfer_end_to_end :
  exists r w,
    run (E := Scenario.externals) Scenario.scripted_client Scenario.agent_A
        [Scenario.user_says "hi"] ∅ None false 3 true (initial_world 0)
    = (Return r, w)
    /\ agent r = Some Scenario.agent_B
    /\ map role (messages r) = ["assistant"; "tool"; "system"; "assistant"]
    /\ mkMessage "system" (Some "Conversation transferred to B")
                 None None None None None ∈ messages r
    /\ length (w_requests w) = 2.
Proof.
  eexists. eexists. split; [reflexivity |].
  split; [reflexivity |]. split; [reflexivity |]. split; [| reflexivity].
  simpl. do 2 apply list_elem_of_further. apply list_elem_of_here.
Qed.

(** ** The turn loop of [run_and_stream] *)

Lemma pop_role_sender_stamp (d : Delta) (name : string) :
  pop_role_sender (stamp_delta d name) = pop_role_sender d.
Proof. unfold stamp_delta. destruct (bool_decide _); reflexivity. Qed.

Lemma merge_chunk_with_sender (m : StreamMessage) (d : Delta) (s : option string) :
  merge_chunk (with_sender m s) (pop_role_sender d)
  = with_sender (merge_chunk m (pop_role_sender d)) s.
Proof. reflexivity. Qed.

(** The chunks never change the sender of the message they add up to. *)
Lemma accumulate_with_sender (chunks : list Delta) :
  forall (m : StreamMessage) (s : option string),
    accumulate (with_sender m s) chunks = with_sender (accumulate m chunks) s.
Proof.
  induction chunks as [|d chunks IH]; intros m s; [reflexivity |].
  unfold accumulate in *. simpl. rewrite merge_chunk_with_sender. apply IH.
Qed.

(** Stamping the sender on the completion's message gives the message the
    streaming turn builds. *)
Lemma streamed_message_sender (a : Agent) (chunks : list Delta) :
  set_sender (streamed_message chunks) (agent_name a)
  = finish_message (accumulate (fresh_message a) chunks).
Proof.
  unfold streamed_message.
  change (fresh_message a)
    with (with_sender (mkStreamMessage (Some "") None "assistant" None [])
                      (Some (agent_name a))).
  rewrite accumulate_with_sender. reflexivity.
Qed.

Section Stream.
Context `{E : Externals} {St : Type} (client : Client St).

Lemma consume_chunks_eq (name : string) (chunks : list Delta) :
  forall (m : StreamMessage) (w : World St),
    consume_chunks name m chunks w
    = (Return (accumulate m chunks),
       mkWorld (w_client w) (w_requests w)
               (w_yielded w ++ map (fun d => EvDelta (stamp_delta d name)) chunks)).
Proof.
  induction chunks as [|d chunks IH]; intros m w.
  - simpl. unfold ret. rewrite app_nil_r. destruct w; reflexivity.
  - simpl. unfold bind, yield. rewrite IH. simpl.
    rewrite pop_role_sender_stamp, <- app_assoc. reflexivity.
Qed.

Lemma stream_turn_eq (a : Agent) (mo : option string) (et : bool)
    (st : RunState) (w : World St) :
  exists events,
    stream_turn client a mo et st w
    = (stream_turn_outcome a et st
         (fst (client (build_create_params (active_agent st) (history st)
                         (run_context st) mo true) (w_client w))),
       mkWorld
         (snd (client (build_create_params (active_agent st) (history st)
                         (run_context st) mo true) (w_client w)))
         (w_requests w ++ [build_create_params (active_agent st) (history st)
                             (run_context st) mo true])
         (w_yielded w ++ events)).
Proof.
  unfold stream_turn, stream_turn_outcome, get_chat_completion, request, bind.
  destruct (client _ (w_client w)) as [[c|e] s']; simpl.
  - destruct (iter_chunks c) as [chunks|e]; simpl.
    + rewrite consume_chunks_eq. simpl.
      destruct (no_tool_calls _ || negb et).
      * eexists. unfold ret. rewrite <- !app_assoc. reflexivity.
      * unfold lift. destruct (handle_tool_calls _ _ _); simpl;
          eexists; unfold ret; rewrite <- !app_assoc; reflexivity.
    + exists [EvDelim "start"]. reflexivity.
  - exists []. rewrite app_nil_r. reflexivity.
Qed.

(** A streamed turn that does not break has made the history longer. *)
Lemma stream_turn_outcome_grows (a : Agent) (et : bool) (st st' : RunState)
    (answer : except Completion) :
  stream_turn_outcome a et st answer = Return (Next, st') ->
  length (history st) < length (history st').
Proof.
  unfold stream_turn_outcome. destruct answer as [c|e]; simpl; [| discriminate].
  destruct (iter_chunks c) as [chunks|e]; simpl; [| discriminate].
  destruct (no_tool_calls _ || negb et); [discriminate |].
  destruct (handle_tool_calls _ _ _) as [p|e]; simpl; [| discriminate].
  intros Heq. injection Heq as <-. simpl. rewrite !length_app. simpl. lia.
Qed.

Lemma stream_loop_S (a : Agent) (mo : option string) (et : bool)
    (init_len : nat) (max_turns : option Z) (fuel : nat) (st : RunState)
    (w : World St) :
  below_max_turns init_len max_turns st = true ->
  stream_loop client a mo et init_len max_turns (Datatypes.S fuel) st w
  = match stream_turn client a mo et st w with
    | (Return (Break, st'), w') => (Return (Some st'), w')
    | (Return (Next, st'), w') =>
        stream_loop client a mo et init_len max_turns fuel st' w'
    | (Raise e, w') => (Raise e, w')
    end.
Proof.
  intros Hcond. simpl. rewrite Hcond. unfold bind.
  destruct (stream_turn client a mo et st w) as [[[[|] st']|e] w']; reflexivity.
Qed.

Lemma stream_loop_done (a : Agent) (mo : option string) (et : bool)
    (init_len : nat) (max_turns : option Z) (fuel : nat) (st : RunState)
    (w : World St) :
  below_max_turns init_len max_turns st = false ->
  stream_loop client a mo et init_len max_turns fuel st w = (Return (Some st), w).
Proof. intros Hcond. destruct fuel; simpl; rewrite Hcond; reflexivity. Qed.

(** With a finite bound, as many iterations as the bound leaves room for
    messages end the loop. *)
Lemma stream_loop_enough_fuel (a : Agent) (mo : option string) (et : bool)
    (init_len : nat) (max_turns : Z) (fuel : nat) :
  forall (st : RunState) (w : World St),
    (max_turns - (Z.of_nat (length (history st)) - Z.of_nat init_len)
     <= Z.of_nat fuel)%Z ->
    fst (stream_loop client a mo et init_len (Some max_turns) fuel st w)
    <> Return None.
Proof.
  induction fuel as [|fuel IH]; intros st w Hroom.
  - destruct (below_max_turns init_len (Some max_turns) st) eqn:Hcond.
    + simpl in Hcond. apply Z.ltb_lt in Hcond. lia.
    + rewrite stream_loop_done by exact Hcond. discriminate.
  - destruct (below_max_turns init_len (Some max_turns) st) eqn:Hcond.
    + rewrite stream_loop_S by exact Hcond.
      destruct (stream_turn_eq a mo et st w) as [events ->].
      destruct (stream_turn_outcome a et st _) as [[[|] st']|e] eqn:Hout;
        [discriminate | | discriminate].
      apply IH. apply stream_turn_outcome_grows in Hout. lia.
    + rewrite stream_loop_done by exact Hcond. discriminate.
Qed.

(** [run_and_stream] with a finite [max_turns] runs to its end: it yields
    its final event or raises. *)
Lemma run_and_stream_ends (a : Agent) (seed : list Message) (ctx : dict)
    (mo : option string) (max_turns : Z) (et : bool) (w : World St) :
  fst (run_and_stream client a seed ctx mo max_turns et w) <> Return None.
Proof.
  unfold run_and_stream, run_and_stream_fuel, bind.
  pose proof (stream_loop_enough_fuel a mo et (length seed) max_turns
                (Z.to_nat max_turns) (mkRunState a seed ctx) w) as Hfuel.
  destruct (stream_loop _ _ _ _ _ _ _ _ _) as [[[st|]|e] w']; simpl in *.
  - discriminate.
  - exfalso. apply Hfuel; [lia | reflexivity].
  - discriminate.
Qed.

(** The streaming loop has its own bound: it does not start a turn once
    [max_turns] messages have been appended, however few turns that took. *)
Lemma stream_loop_stops_on_messages (a : Agent) (mo : option string) (et : bool)
    (init_len : nat) (max_turns : Z) (fuel : nat) (st : RunState) (w : World St) :
  (max_turns <= Z.of_nat (length (history st)) - Z.of_nat init_len)%Z ->
  stream_loop client a mo et init_len (Some max_turns) fuel st w
  = (Return (Some st), w).
Proof.
  intros Hfull. apply stream_loop_done. simpl. apply Z.ltb_ge. exact Hfull.
Qed.

End Stream.

(** Where the two loops agree: [run_and_stream] leaves its loop when the
    turn's message carries no tool calls or tool execution is disabled, as [run] does; when
    this happens in the first turn and [max_turns > 0], both send exactly one
    request, and the response of the final event that [run_and_stream] yields
    is the response that [run] returns for the completion that carries what
    the chunks carry. (Past the first turn the two loops differ: the
    streaming loop is bounded by the number of messages appended, and it
    switches agents without a transfer notice.) *)
Theorem run_and_stream_single_turn `{E : Externals} {St St' : Type}
    (client : Client St) (client' : Client St') (a : Agent)
    (seed : list Message) (ctx : dict) (mo : option string) (stream : bool)
    (max_turns : Z) (et : bool) (s s1 : St) (s' s1' : St') (chunks : list Delta) :
  (0 < max_turns)%Z ->
  client (build_create_params a seed ctx mo true) s
  = (Return (ChunkStream chunks), s1) ->
  client' (build_create_params a seed ctx mo stream) s'
  = (Return (ChatCompletion (streamed_message chunks)), s1') ->
  no_tool_calls (streamed_message chunks) = true \/ et = false ->
  exists r w w',
    run_and_stream client a seed ctx mo max_turns et (initial_world s)
    = (Return (Some r), w)
    /\ run client' a seed ctx mo stream max_turns et (initial_world s')
       = (Return r, w')
    /\ length (w_requests w) = 1
    /\ length (w_requests w') = 1
    /\ last (w_yielded w) = Some (EvResponse r).
Proof.
  intros Hpos Hstream Hplain Hlast.
  pose proof (run_single_turn client' a seed ctx mo stream max_turns et
                (initial_world s') (streamed_message chunks) s1' Hpos Hplain Hlast)
    as Hrun.
  assert (Hcond : no_tool_calls (finish_message (accumulate (fresh_message a) chunks))
                  || negb et = true).
  { rewrite <- streamed_message_sender, no_tool_calls_set_sender.
    destruct Hlast as [-> | ->]; [reflexivity | apply orb_true_r]. }
  assert (Hbelow : below_max_turns (length seed) (Some max_turns)
                     (mkRunState a seed ctx) = true)
    by (simpl; apply Z.ltb_lt; lia).
  unfold run_and_stream, run_and_stream_fuel, bind.
  destruct (Z.to_nat max_turns) as [|fuel] eqn:Hfuel; [lia |].
  rewrite (stream_loop_S client a mo et _ _ fuel _ _ Hbelow).
  destruct (stream_turn_eq client a mo et (mkRunState a seed ctx) (initial_world s))
    as [events ->].
  simpl. rewrite Hstream. unfold stream_turn_outcome. simpl.
  rewrite Hcond. unfold yield, ret. simpl.
  eexists. eexists. eexists. split; [reflexivity |].
  split.
  { rewrite Hrun. unfold final_response. simpl.
    rewrite drop_app_length, <- streamed_message_sender. reflexivity. }
  split; [reflexivity |]. split; [reflexivity |]. apply last_snoc.
Qed.

Lemma run_and_stream_single_turn_witness :
  (0 < 10)%Z
  /\ exists r w w',
       run_and_stream (E := Scenario.externals) Scenario.talking_stream
         Scenario.worker [Scenario.user_says "hi"] ∅ None 10 true (initial_world tt)
       = (Return (Some r), w)
       /\ run (E := Scenario.externals) Scenario.talking_client
            Scenario.worker [Scenario.user_says "hi"] ∅ None false 10 true
            (initial_world tt)
          = (Return r, w')
       /\ length (w_requests w) = 1
       /\ length (w_requests w') = 1
       /\ last (w_yielded w) = Some (EvResponse r).
Proof.
  assert (Hpos : (0 < 10)%Z) by lia.
  split; [exact Hpos |].
  exact (run_and_stream_single_turn (E := Scenario.externals)
           Scenario.talking_stream Scenario.talking_client Scenario.worker
           [Scenario.user_says "hi"] ∅ None false 10 true tt tt tt tt
           Scenario.hello_chunks Hpos eq_refl eq_refl (or_introl eq_refl)).
Defined.

(** C8, at the failing input: the two backends answer every request with the
    same completion, streamed and not, a call of the tool [noop]; with
    [max_turns = 2] the streaming loop ends after one turn, because two
    messages were appended, and [run] makes two turns. The final response of
    [run_and_stream] has two messages, that of [run] has four. *)
Lemma run_and_stream_counterexample :
  (forall params s,
      Scenario.streaming_client params s
      = (Return (ChunkStream Scenario.noop_chunks), s)
      /\ Scenario.unstreamed_client params s
         = (Return (ChatCompletion (streamed_message Scenario.noop_chunks)), s))
  /\ no_tool_calls (streamed_message Scenario.noop_chunks) = false
  /\ exists rs ws rr wr,
       run_and_stream (E := Scenario.externals) Scenario.streaming_client
         Scenario.worker [] ∅ None 2 true (initial_world tt)
       = (Return (Some rs), ws)
       /\ run (E := Scenario.externals) Scenario.unstreamed_client
            Scenario.worker [] ∅ None false 2 true (initial_world tt)
          = (Return rr, wr)
       /\ length (w_requests ws) = 1
       /\ length (w_requests wr) = 2
       /\ length (messages rs) = 2
       /\ length (messages rr) = 4
       /\ rs <> rr.
Proof.
  split; [intros params s; split; reflexivity |].
  split; [reflexivity |].
  destruct (run_and_stream _ _ _ _ _ _ _ _) as [out_s ws] eqn:Hs.
  destruct (run _ _ _ _ _ _ _ _ _) as [out_r wr] eqn:Hr.
  vm_compute in Hs. vm_compute in Hr.
  injection Hs as <- <-. injection Hr as <- <-.
  eexists. eexists. eexists. eexists.
  split; [reflexivity |]. split; [reflexivity |].
  split; [reflexivity |]. split; [reflexivity |].
  split; [reflexivity |]. split; [reflexivity |].
  intros Heq. apply (f_equal (fun r => length (messages r))) in Heq.
  simpl in Heq. discriminate Heq.
Qed.

(** The handoff in the streaming loop: the agent becomes B without a transfer
    notice in the history, and B's answer is stamped with the name of A, the
    agent the run started with; [run] over the same completions records the
    transfer and stamps B. *)
Example run_and_stream_handoff :
  exists rs ws rr wr,
    run_and_stream (E := Scenario.externals) Scenario.scripted_stream
      Scenario.agent_A [] ∅ None 10 true (initial_world 0)
    = (Return (Some rs), ws)
    /\ run (E := Scenario.externals) Scenario.scripted_unstreamed
         Scenario.agent_A [] ∅ None false 10 true (initial_world 0)
       = (Return rr, wr)
    /\ agent rs = Some Scenario.agent_B
    /\ agent rr = Some Scenario.agent_B
    /\ map (fun m => (role m, sender m)) (messages rs)
       = [("assistant", Some "A"); ("tool", None); ("assistant", Some "A")]
    /\ map (fun m => (role m, sender m)) (messages rr)
       = [("assistant", Some "A"); ("tool", None); ("system", None);
          ("assistant", Some "B")].
Proof.
  destruct (run_and_stream _ _ _ _ _ _ _ _) as [out_s ws] eqn:Hs.
  destruct (run _ _ _ _ _ _ _ _ _) as [out_r wr] eqn:Hr.
  vm_compute in Hs. vm_compute in Hr.
  injection Hs as <- <-. injection Hr as <- <-.
  eexists. eexists. eexists. eexists.
  split; [reflexivity |]. split; [reflexivity |].
  repeat split.
Qed.

(** * Further properties of the dispatcher *)

Section DispatchMore.
Context `{E : Externals}.

Lemma func_def_app (l1 l2 : list AgentFunction) (name : string) :
  func_def (l1 ++ l2) name
  = match func_def l1 name with
    | Some f => Some f
    | None => func_def l2 name
    end.
Proof.
  unfold func_def. induction l1 as [|f l1 IH]; simpl; [reflexivity |].
  destruct (String.eqb (f_name f) name); [reflexivity | exact IH].
Qed.

Lemma function_map_foldl_last (functions : list AgentFunction) :
  forall (m : gmap string PyFunction) (name : string),
    foldl (fun m f => <[f_name f := f_function f]> m) m functions !! name
    = match func_def (rev functions) name with
      | Some f => Some (f_function f)
      | None => m !! name
      end.
Proof.
  induction functions as [|f functions IH]; intros m name; simpl; [reflexivity |].
  rewrite IH, func_def_app.
  destruct (func_def (rev functions) name) as [g|]; [reflexivity |].
  unfold func_def. simpl.
  destruct (String.eqb (f_name f) name) eqn:Heq.
  - apply String.eqb_eq in Heq. subst name. apply lookup_insert_eq.
  - apply String.eqb_neq in Heq. apply lookup_insert_ne. exact Heq.
Qed.

(** The function map holds, for a name, the function of the last entry of
    that name, while [func_def] is the first entry of that name. *)
Theorem function_map_last_wins (functions : list AgentFunction) (name : string) :
  function_map functions !! name
  = option_map f_function (func_def (rev functions) name).
Proof.
  unfold function_map. rewrite function_map_foldl_last, lookup_empty.
  destruct (func_def (rev functions) name); reflexivity.
Qed.

Lemma func_def_None (functions : list AgentFunction) (name : string) :
  name ∉ map f_name functions -> func_def functions name = None.
Proof.
  unfold func_def. induction functions as [|f functions IH]; simpl; [reflexivity |].
  intros Hnot. apply not_elem_of_cons in Hnot as [Hne Hrest].
  destruct (String.eqb (f_name f) name) eqn:Heq.
  - apply String.eqb_eq in Heq. congruence.
  - apply IH. exact Hrest.
Qed.

Lemma function_map_foldl_first (functions : list AgentFunction) :
  NoDup (map f_name functions) ->
  forall (m : gmap string PyFunction) (name : string),
    foldl (fun m f => <[f_name f := f_function f]> m) m functions !! name
    = match func_def functions name with
      | Some f => Some (f_function f)
      | None => m !! name
      end.
Proof.
  induction functions as [|f functions IH]; intros Hnodup m name; simpl;
    [reflexivity |].
  simpl in Hnodup. apply NoDup_cons in Hnodup as [Hfresh Hnodup].
  rewrite (IH Hnodup). unfold func_def at 2. simpl.
  destruct (String.eqb (f_name f) name) eqn:Heq.
  - apply String.eqb_eq in Heq. subst name.
    rewrite (func_def_None _ _ Hfresh). apply lookup_insert_eq.
  - apply String.eqb_neq in Heq. fold (func_def functions name).
    destruct (func_def functions name); [reflexivity |].
    apply lookup_insert_ne. exact Heq.
Qed.

(** When no two functions of the agent share a name, the function that is
    invoked is the one whose code object decides the injection. *)
Theorem function_map_func_def (functions : list AgentFunction) (name : string) :
  NoDup (map f_name functions) ->
  function_map functions !! name = option_map f_function (func_def functions name).
Proof.
  intros Hnodup. unfold function_map.
  rewrite (function_map_foldl_first _ Hnodup), lookup_empty.
  destruct (func_def functions name); reflexivity.
Qed.

Lemma handle_tool_calls_from_app (functions : list AgentFunction) (ctx : dict)
    (l1 l2 : list ChatCompletionMessageToolCall) :
  forall p : Response,
    handle_tool_calls_from functions ctx p (l1 ++ l2)
    = except_bind (handle_tool_calls_from functions ctx p l1)
        (fun p' => handle_tool_calls_from functions ctx p' l2).
Proof.
  induction l1 as [|tc l1 IH]; intros p; simpl; [reflexivity |].
  destruct (handle_tool_call functions ctx p tc) as [p'|e]; simpl;
    [apply IH | reflexivity].
Qed.

Lemma handle_tool_calls_from_all_unknown (functions : list AgentFunction)
    (ctx : dict) (tcs : list ChatCompletionMessageToolCall) :
  Forall (fun tc => fn_name (tc_function tc) ∉ map f_name functions) tcs ->
  forall p : Response,
    handle_tool_calls_from functions ctx p tcs
    = Return (mkResponse (messages p ++ map not_found_message tcs)
                         (agent p) (context_variables p)).
Proof.
  induction 1 as [|tc tcs Habsent _ IH]; intros p; simpl.
  - rewrite app_nil_r. destruct p; reflexivity.
  - unfold handle_tool_call. apply function_map_None in Habsent.
    rewrite Habsent. simpl. rewrite IH. simpl.
    rewrite <- app_assoc. reflexivity.
Qed.

(** A turn in which every call names a function the agent does not have: the
    dispatcher returns one error message per call, in the order of the calls,
    no agent and no context delta. The payloads are never deserialized, so
    their being malformed does not matter. *)
Theorem handle_tool_calls_all_unknown (functions : list AgentFunction)
    (ctx : dict) (tcs : list ChatCompletionMessageToolCall) :
  Forall (fun tc => fn_name (tc_function tc) ∉ map f_name functions) tcs ->
  handle_tool_calls tcs functions ctx
  = Return (mkResponse (map not_found_message tcs) None ∅).
Proof.
  intros Habsent. unfold handle_tool_calls.
  rewrite (handle_tool_calls_from_all_unknown _ _ _ Habsent). reflexivity.
Qed.

Lemma handle_tool_call_message (functions : list AgentFunction) (ctx : dict)
    (p p' : Response) (tc : ChatCompletionMessageToolCall) :
  handle_tool_call functions ctx p tc = Return p' ->
  exists m, messages p' = messages p ++ [m]
            /\ role m = "tool"
            /\ tool_call_id m = Some (tc_id tc)
            /\ tool_name m = Some (fn_name (tc_function tc)).
Proof.
  unfold handle_tool_call.
  destruct (function_map functions !! fn_name (tc_function tc)) as [callee|].
  - destruct (invoke functions ctx tc callee) as [r|e]; simpl; [| discriminate].
    intros Heq. injection Heq as <-. eexists. split; [reflexivity |].
    repeat split.
  - intros Heq. injection Heq as <-. eexists. split; [reflexivity |].
    repeat split.
Qed.

Lemma handle_tool_calls_from_messages (functions : list AgentFunction) (ctx : dict)
    (tcs : list ChatCompletionMessageToolCall) :
  forall p p' : Response,
    handle_tool_calls_from functions ctx p tcs = Return p' ->
    exists l, messages p' = messages p ++ l
              /\ map role l = map (fun _ => "tool") tcs
              /\ map tool_call_id l = map (fun tc => Some (tc_id tc)) tcs
              /\ map tool_name l
                 = map (fun tc => Some (fn_name (tc_function tc))) tcs.
Proof.
  induction tcs as [|tc tcs IH]; intros p p' Hrun; simpl in Hrun.
  - injection Hrun as <-. exists []. rewrite app_nil_r. repeat split.
  - destruct (handle_tool_call functions ctx p tc) as [p1|e] eqn:Hstep;
      simpl in Hrun; [| discriminate].
    destruct (handle_tool_call_message _ _ _ _ _ Hstep)
      as [m [Hm [Hrole [Hid Hname]]]].
    destruct (IH p1 p' Hrun) as [l [Hl [Hroles [Hids Hnames]]]].
    exists (m :: l). rewrite Hl, Hm, <- app_assoc. simpl.
    rewrite Hrole, Hid, Hname, Hroles, Hids, Hnames. repeat split.
Qed.

(** A dispatch that returns has produced exactly one tool message per call,
    in the order of the calls, each carrying the id and the function name of
    its call, whether the function was found or not. *)
Theorem handle_tool_calls_one_message_per_call (functions : list AgentFunction)
    (ctx : dict) (tcs : list ChatCompletionMessageToolCall) (p : Response) :
  handle_tool_calls tcs functions ctx = Return p ->
  length (messages p) = length tcs
  /\ map role (messages p) = map (fun _ => "tool") tcs
  /\ map tool_call_id (messages p) = map (fun tc => Some (tc_id tc)) tcs
  /\ map tool_name (messages p)
     = map (fun tc => Some (fn_name (tc_function tc))) tcs.
Proof.
  intros Hrun. unfold handle_tool_calls in Hrun.
  destruct (handle_tool_calls_from_messages _ _ _ _ _ Hrun)
    as [l [Hl [Hroles [Hids Hnames]]]].
  simpl in Hl. rewrite Hl. split; [| repeat split; assumption].
  rewrite <- (length_map role l), Hroles, length_map. reflexivity.
Qed.

(** The first call that raises ends the dispatch: its exception is the
    outcome, and neither the messages gathered so far nor the calls after it
    count. A payload that is not JSON and an exception of the tool itself
    both come out this way. *)
Theorem handle_tool_calls_first_error_aborts (functions : list AgentFunction)
    (ctx : dict) (before after : list ChatCompletionMessageToolCall)
    (tc : ChatCompletionMessageToolCall) (rs : list (option Result))
    (e : Exception) :
  normalized_results functions ctx before = Return rs ->
  normalized_result functions ctx tc = Raise e ->
  handle_tool_calls (before ++ tc :: after) functions ctx = Raise e.
Proof.
  intros Hbefore Hraise. unfold handle_tool_calls.
  rewrite handle_tool_calls_from_app.
  destruct (handle_tool_calls_from_earliest functions ctx before
              (mkResponse [] None ∅) rs Hbefore) as [p [-> _]].
  simpl. unfold handle_tool_call. unfold normalized_result in Hraise.
  destruct (function_map functions !! fn_name (tc_function tc)) as [callee|];
    [| discriminate Hraise].
  destruct (invoke functions ctx tc callee) as [r|e']; simpl in *;
    [discriminate Hraise |].
  injection Hraise as ->. reflexivity.
Qed.

End DispatchMore.

Section DispatchContext.
Context `{E : Externals}.

Lemma handle_tool_calls_from_latest (functions : list AgentFunction) (ctx : dict)
    (tcs : list ChatCompletionMessageToolCall) (k : string) :
  forall (p0 : Response) (rs : list (option Result)),
    normalized_results functions ctx tcs = Return rs ->
    exists p, handle_tool_calls_from functions ctx p0 tcs = Return p
              /\ context_variables p !! k
                 = match latest_binding k rs with
                   | Some v => Some v
                   | None => context_variables p0 !! k
                   end.
Proof.
  induction tcs as [|tc tcs IH]; intros p0 rs Hrs; simpl in Hrs.
  - injection Hrs as <-. exists p0. split; reflexivity.
  - unfold normalized_result in Hrs.
    destruct (function_map functions !! fn_name (tc_function tc)) as [callee|] eqn:Hmap.
    + destruct (invoke functions ctx tc callee) as [r|e] eqn:Hinv; simpl in Hrs;
        [| discriminate Hrs].
      destruct (normalized_results functions ctx tcs) as [rs'|e] eqn:Hrest;
        simpl in Hrs; [| discriminate Hrs].
      injection Hrs as <-.
      rewrite handle_tool_calls_from_cons,
        (handle_tool_call_found _ _ p0 _ _ _ Hmap Hinv). simpl.
      match goal with
      | |- context [handle_tool_calls_from _ _ ?q tcs] =>
          destruct (IH q rs' eq_refl) as [p [Hp Hk]]
      end.
      exists p. split; [exact Hp |]. rewrite Hk. simpl.
      destruct (latest_binding k rs'); [reflexivity |].
      apply update_lookup.
    + simpl in Hrs.
      destruct (normalized_results functions ctx tcs) as [rs'|e] eqn:Hrest;
        simpl in Hrs; [| discriminate Hrs].
      injection Hrs as <-.
      rewrite handle_tool_calls_from_cons. unfold handle_tool_call at 1.
      rewrite Hmap. simpl.
      match goal with
      | |- context [handle_tool_calls_from _ _ ?q tcs] =>
          destruct (IH q rs' eq_refl) as [p [Hp Hk]]
      end.
      exists p. split; [exact Hp |]. rewrite Hk. simpl.
      destruct (latest_binding k rs'); reflexivity.
Qed.

(** The context delta of a turn, key by key: a key has the value that the
    latest call whose [Result] sets it gave it, and a key that no [Result]
    sets is not in the delta. The running context is not part of it. *)
Theorem handle_tool_calls_latest_key_wins (functions : list AgentFunction)
    (ctx : dict) (tcs : list ChatCompletionMessageToolCall)
    (rs : list (option Result)) (k : string) :
  normalized_results functions ctx tcs = Return rs ->
  exists p, handle_tool_calls tcs functions ctx = Return p
            /\ context_variables p !! k = latest_binding k rs.
Proof.
  intros Hrs. unfold handle_tool_calls.
  destruct (handle_tool_calls_from_latest functions ctx tcs k
              (mkResponse [] None ∅) rs Hrs) as [p [Hp Hk]].
  exists p. split; [exact Hp |]. rewrite Hk. simpl.
  destruct (latest_binding k rs); [reflexivity | apply lookup_empty].
Qed.

Lemma func_def_elem (functions : list AgentFunction) (name : string)
    (fd : AgentFunction) :
  func_def functions name = Some fd -> fd ∈ functions /\ f_name fd = name.
Proof.
  unfold func_def. intros Hfind. apply find_some in Hfind as [Hin Heq].
  split; [apply list_elem_of_In; exact Hin | apply String.eqb_eq; exact Heq].
Qed.

Lemma injects_context_false (functions : list AgentFunction) (name : string) :
  Forall (fun f => __CTX_VARS_NAME__ ∉ co_varnames (f_function f)) functions ->
  injects_context functions name = false.
Proof.
  intros Hnone. unfold injects_context.
  destruct (func_def functions name) as [fd|] eqn:Hfd; [| reflexivity].
  apply func_def_elem in Hfd as [Hin _].
  rewrite Forall_forall in Hnone. apply bool_decide_eq_false, Hnone, Hin.
Qed.

Lemma handle_tool_call_without_injection (functions : list AgentFunction)
    (ctx ctx' : dict) (p : Response) (tc : ChatCompletionMessageToolCall) :
  Forall (fun f => __CTX_VARS_NAME__ ∉ co_varnames (f_function f)) functions ->
  handle_tool_call functions ctx p tc = handle_tool_call functions ctx' p tc.
Proof.
  intros Hnone. unfold handle_tool_call, invoke, call_kwargs.
  rewrite (injects_context_false _ _ Hnone). reflexivity.
Qed.

(** When the name [context_variables] is in the code object of none of the
    agent's functions, the outcome of a dispatch does not depend on the
    running context: no tool gets to see it. *)
Theorem handle_tool_calls_without_injection (functions : list AgentFunction)
    (ctx ctx' : dict) (tcs : list ChatCompletionMessageToolCall) :
  Forall (fun f => __CTX_VARS_NAME__ ∉ co_varnames (f_function f)) functions ->
  handle_tool_calls tcs functions ctx = handle_tool_calls tcs functions ctx'.
Proof.
  intros Hnone. unfold handle_tool_calls.
  generalize (mkResponse [] None ∅). induction tcs as [|tc tcs IH]; intros p;
    simpl; [reflexivity |].
  rewrite (handle_tool_call_without_injection _ ctx ctx' p tc Hnone).
  destruct (handle_tool_call functions ctx' p tc); simpl; [apply IH | reflexivity].
Qed.

(** The keyword arguments of an injected call: whatever the payload says
    under the key [context_variables] is replaced by the running context, and
    every other key of the payload is passed on as it is. *)
Theorem call_kwargs_overwrites_payload (functions : list AgentFunction)
    (ctx d : dict) (tc : ChatCompletionMessageToolCall) :
  json_loads (fn_arguments (tc_function tc)) = Return (PyDict d) ->
  injects_context functions (fn_name (tc_function tc)) = true ->
  exists kwargs,
    call_kwargs functions ctx tc = Return kwargs
    /\ kwargs !! __CTX_VARS_NAME__ = Some (PyDict ctx)
    /\ (forall k, k <> __CTX_VARS_NAME__ -> kwargs !! k = d !! k).
Proof.
  intros Hloads Hinject. unfold call_kwargs. rewrite Hloads, Hinject. simpl.
  eexists. split; [reflexivity |]. split.
  - apply lookup_insert_eq.
  - intros k Hk. apply lookup_insert_ne. congruence.
Qed.

(** A payload that is valid JSON but not an object is fatal to the dispatch:
    the call raises [TypeError] and the tool is not invoked, whatever it
    is. *)
Theorem handle_tool_call_payload_not_object (functions : list AgentFunction)
    (ctx : dict) (p : Response) (tc : ChatCompletionMessageToolCall)
    (callee : PyFunction) (v : PyValue) :
  function_map functions !! fn_name (tc_function tc) = Some callee ->
  json_loads (fn_arguments (tc_function tc)) = Return v ->
  (forall d, v <> PyDict d) ->
  exists msg, handle_tool_call functions ctx p tc = Raise (TypeError msg)
              /\ forall callee' : PyFunction,
                   invoke functions ctx tc callee' = Raise (TypeError msg).
Proof.
  intros Hmap Hloads Hnot. unfold handle_tool_call, invoke, call_kwargs.
  rewrite Hmap, Hloads. simpl.
  destruct v; try (eexists; split; [reflexivity | intros; reflexivity]).
  exfalso. apply (Hnot d). reflexivity.
Qed.

End DispatchContext.

(** The normalizer raises on nothing but an object whose [str] raises: a
    [Result], an [Agent] and a string always normalize. *)
Theorem handle_function_result_raises_only_on_objects (raw : RawResult)
    (e : Exception) :
  handle_function_result raw = Raise e ->
  exists o e0, raw = RObject o /\ py_str o = Raise e0.
Proof.
  destruct raw as [r|a|s|o]; simpl; try discriminate.
  destruct (py_str o) as [s|e0] eqn:Hstr; [discriminate |].
  intros _. exists o, e0. split; [reflexivity | exact Hstr].
Qed.

Lemma function_map_func_def_witness :
  NoDup (map f_name [Scenario.to_x; Scenario.to_y])
  /\ function_map [Scenario.to_x; Scenario.to_y] !! "to_y"
     = Some (f_function Scenario.to_y).
Proof.
  assert (Hnodup : NoDup (map f_name [Scenario.to_x; Scenario.to_y])).
  { simpl. apply NoDup_cons. split.
    - intros Hin. apply list_elem_of_singleton in Hin. discriminate Hin.
    - apply NoDup_singleton. }
  split; [exact Hnodup |].
  exact (function_map_func_def [Scenario.to_x; Scenario.to_y] "to_y" Hnodup).
Defined.

Lemma handle_tool_calls_all_unknown_witness :
  Forall (fun tc => fn_name (tc_function tc) ∉ map f_name [Scenario.noop])
         [Scenario.call "c1" "missing_tool"; Scenario.broken_call "c2" "other"]
  /\ handle_tool_calls (E := Scenario.externals)
       [Scenario.call "c1" "missing_tool"; Scenario.broken_call "c2" "other"]
       [Scenario.noop] ∅
     = Return (mkResponse
                 [mkMessage "tool" (Some "Error: Tool missing_tool not found.")
                            None None None (Some "c1") (Some "missing_tool");
                  mkMessage "tool" (Some "Error: Tool other not found.")
                            None None None (Some "c2") (Some "other")]
                 None ∅).
Proof.
  assert (Habsent :
    Forall (fun tc => fn_name (tc_function tc) ∉ map f_name [Scenario.noop])
           [Scenario.call "c1" "missing_tool"; Scenario.broken_call "c2" "other"]).
  { repeat constructor; simpl; intros Hin;
      apply list_elem_of_singleton in Hin; discriminate Hin. }
  split; [exact Habsent |].
  exact (handle_tool_calls_all_unknown (E := Scenario.externals)
           [Scenario.noop] ∅ _ Habsent).
Defined.

Lemma handle_tool_calls_one_message_per_call_witness :
  exists p,
    handle_tool_calls (E := Scenario.externals)
      [Scenario.call "c1" "to_x"; Scenario.call "c2" "nobody"]
      [Scenario.to_x; Scenario.to_y] ∅ = Return p
    /\ length (messages p) = 2
    /\ map tool_call_id (messages p) = [Some "c1"; Some "c2"].
Proof.
  eexists. split; [reflexivity |].
  pose proof (handle_tool_calls_one_message_per_call (E := Scenario.externals)
                [Scenario.to_x; Scenario.to_y] ∅
                [Scenario.call "c1" "to_x"; Scenario.call "c2" "nobody"]
                _ eq_refl) as [Hlen [_ [Hids _]]].
  split; [exact Hlen | exact Hids].
Defined.

Lemma handle_tool_calls_first_error_aborts_witness :
  handle_tool_calls (E := Scenario.externals)
    ([Scenario.call "c1" "noop"]
       ++ Scenario.broken_call "c2" "noop" :: [Scenario.call "c3" "noop"])
    [Scenario.noop] ∅
  = Raise Scenario.JSONDecodeError.
Proof.
  exact (handle_tool_calls_first_error_aborts (E := Scenario.externals)
           [Scenario.noop] ∅ [Scenario.call "c1" "noop"]
           [Scenario.call "c3" "noop"] (Scenario.broken_call "c2" "noop")
           [Some (mkResult "ok" None ∅)] Scenario.JSONDecodeError
           eq_refl eq_refl).
Defined.

Lemma handle_tool_calls_latest_key_wins_witness :
  exists p,
    handle_tool_calls (E := Scenario.externals)
      [Scenario.call "c1" "set_ab"; Scenario.call "c2" "set_a"]
      [Scenario.set_ab; Scenario.set_a] ∅ = Return p
    /\ context_variables p !! "a" = Some (PyInt 1).
Proof.
  exact (handle_tool_calls_latest_key_wins (E := Scenario.externals)
           [Scenario.set_ab; Scenario.set_a] ∅
           [Scenario.call "c1" "set_ab"; Scenario.call "c2" "set_a"]
           [Some (mkResult "done" None {[ "a" := PyInt 2; "b" := PyInt 3 ]});
            Some (mkResult "done" None {[ "a" := PyInt 1 ]})]
           "a" eq_refl).
Defined.

Lemma handle_tool_calls_without_injection_witness :
  handle_tool_calls (E := Scenario.externals)
    [Scenario.call "c1" "noop"] [Scenario.noop] {[ "user" := PyStr "Ann" ]}
  = handle_tool_calls (E := Scenario.externals)
      [Scenario.call "c1" "noop"] [Scenario.noop] ∅.
Proof.
  apply (handle_tool_calls_without_injection (E := Scenario.externals)).
  repeat constructor. simpl. apply not_elem_of_nil.
Defined.

Lemma call_kwargs_overwrites_payload_witness :
  exists kwargs,
    call_kwargs (E := Scenario.externals) [Scenario.greet]
      {[ "user" := PyStr "Ann" ]} (Scenario.call "c1" "greet") = Return kwargs
    /\ kwargs !! __CTX_VARS_NAME__ = Some (PyDict {[ "user" := PyStr "Ann" ]})
    /\ (forall k, k <> __CTX_VARS_NAME__ -> kwargs !! k = (∅ : dict) !! k).
Proof.
  exact (call_kwargs_overwrites_payload (E := Scenario.externals)
           [Scenario.greet] {[ "user" := PyStr "Ann" ]} ∅
           (Scenario.call "c1" "greet") eq_refl eq_refl).
Defined.

Lemma handle_tool_call_payload_not_object_witness :
  exists msg,
    handle_tool_call (E := Scenario.externals_arrays) [Scenario.noop] ∅
      (mkResponse [] None ∅) (mkToolCall "c1" (mkFunction "[]" "noop") "function")
    = Raise (TypeError msg)
    /\ forall callee' : PyFunction,
         invoke (E := Scenario.externals_arrays) [Scenario.noop] ∅
           (mkToolCall "c1" (mkFunction "[]" "noop") "function") callee'
         = Raise (TypeError msg).
Proof.
  apply (handle_tool_call_payload_not_object (E := Scenario.externals_arrays)
           [Scenario.noop] ∅ (mkResponse [] None ∅)
           (mkToolCall "c1" (mkFunction "[]" "noop") "function")
           (f_function Scenario.noop) (PyList []) eq_refl eq_refl).
  intros d Heq. discriminate Heq.
Defined.

Lemma handle_function_result_raises_only_on_objects_witness :
  exists o e0, RObject Scenario.unprintable = RObject o /\ py_str o = Raise e0.
Proof.
  exact (handle_function_result_raises_only_on_objects
           (RObject Scenario.unprintable) (mkException "ValueError" "boom")
           eq_refl).
Defined.

(** * Further properties of the normalizer's JSON value *)

Lemma printable_ascii_app (s1 s2 : string) :
  printable_ascii (s1 +:+ s2) = printable_ascii s1 && printable_ascii s2.
Proof.
  induction s1 as [|c s1 IH]; simpl; [reflexivity |].
  rewrite IH, !andb_assoc. reflexivity.
Qed.

Lemma json_escape_char_printable (c : ascii) :
  printable_ascii (json_escape_char c) = true.
Proof.
  destruct c as [[|] [|] [|] [|] [|] [|] [|] [|]]; vm_compute; reflexivity.
Qed.

Lemma json_escape_printable (s : string) : printable_ascii (json_escape s) = true.
Proof.
  induction s as [|c s IH]; simpl; [reflexivity |].
  rewrite printable_ascii_app, json_escape_char_printable, IH. reflexivity.
Qed.

(** The value of a handoff [Result] is made of printable ASCII characters
    only, whatever characters the agent's name has, and the [Result] carries
    that agent and no context delta. *)
Theorem handle_function_result_Agent_printable (a : Agent) :
  exists r, handle_function_result (RAgent a) = Return r
            /\ printable_ascii (result_value r) = true
            /\ result_agent r = Some a
            /\ result_context_variables r = ∅.
Proof.
  eexists. split; [reflexivity |]. split; [| split; reflexivity].
  simpl. unfold json_dumps_assistant, json_dumps_str.
  rewrite !printable_ascii_app, json_escape_printable. reflexivity.
Qed.

Lemma json_escape_char_plain (c : ascii) :
  json_plain (String c "") = true -> json_escape_char c = String c "".
Proof.
  destruct c as [[|] [|] [|] [|] [|] [|] [|] [|]]; vm_compute;
    first [reflexivity | discriminate].
Qed.

Lemma json_escape_plain (s : string) : json_plain s = true -> json_escape s = s.
Proof.
  induction s as [|c s IH]; simpl; [reflexivity |].
  intros Hplain. apply andb_prop in Hplain as [Hc Hs].
  rewrite (json_escape_char_plain c), (IH Hs); [reflexivity |].
  simpl. rewrite Hc. reflexivity.
Qed.

(** A name of printable characters without quote and backslash is written
    into the handoff value as it is. *)
Theorem handle_function_result_Agent_plain_name (a : Agent) :
  json_plain (agent_name a) = true ->
  handle_function_result (RAgent a)
  = Return (mkResult ("{" +:+ dquote +:+ "assistant" +:+ dquote +:+ ": "
                          +:+ (dquote +:+ agent_name a +:+ dquote) +:+ "}")
                     (Some a) ∅).
Proof.
  intros Hplain. simpl. unfold Result_, json_dumps_assistant, json_dumps_str.
  rewrite (json_escape_plain _ Hplain). reflexivity.
Qed.

Lemma handle_function_result_Agent_plain_name_witness :
  json_plain (agent_name Scenario.agent_B) = true
  /\ handle_function_result (RAgent Scenario.agent_B)
     = Return (mkResult ("{" +:+ dquote +:+ "assistant" +:+ dquote +:+ ": "
                             +:+ (dquote +:+ "B" +:+ dquote) +:+ "}")
                        (Some Scenario.agent_B) ∅).
Proof.
  split; [reflexivity |].
  exact (handle_function_result_Agent_plain_name Scenario.agent_B eq_refl).
Defined.

(** * Further properties of the request *)

Section Request.
Context `{E : Externals}.

Lemma remove_first_other (x y : string) (l : list string) :
  y <> x -> y ∈ remove_first x l <-> y ∈ l.
Proof.
  intros Hne. induction l as [|z l IH]; simpl; [reflexivity |].
  destruct (String.eqb z x) eqn:Heq.
  - apply String.eqb_eq in Heq. subst z. rewrite elem_of_cons. split.
    + intros Hin. right. exact Hin.
    + intros [Heq | Hin]; [congruence | exact Hin].
  - rewrite !elem_of_cons, IH. reflexivity.
Qed.

Lemma remove_first_NoDup (x : string) (l : list string) :
  NoDup l -> x ∉ remove_first x l.
Proof.
  induction 1 as [|z l Hfresh Hnodup IH]; simpl; [apply not_elem_of_nil |].
  destruct (String.eqb z x) eqn:Heq.
  - apply String.eqb_eq in Heq. subst z. exact Hfresh.
  - apply String.eqb_neq in Heq. apply not_elem_of_cons. split;
      [congruence | exact IH].
Qed.

(** What the model is shown of a tool: the reserved parameter is in neither
    the properties nor, for a list of required names without repetition, the
    required names, and every other property and required name is kept. *)
Theorem hide_context_spec (tool : ToolSchema) :
  NoDup (required tool) ->
  properties (hide_context tool) !! __CTX_VARS_NAME__ = None
  /\ (__CTX_VARS_NAME__ ∉ required (hide_context tool))
  /\ (forall k, k <> __CTX_VARS_NAME__ ->
        properties (hide_context tool) !! k = properties tool !! k)
  /\ (forall k, k <> __CTX_VARS_NAME__ ->
        k ∈ required (hide_context tool) <-> k ∈ required tool)
  /\ schema_name (hide_context tool) = schema_name tool.
Proof.
  intros Hnodup. unfold hide_context. simpl.
  split; [apply lookup_delete_eq |].
  split; [apply remove_first_NoDup; exact Hnodup |].
  split; [intros k Hk; apply lookup_delete_ne; congruence |].
  split; [intros k Hk; apply remove_first_other; exact Hk | reflexivity].
Qed.

(** The tools of a request: for an agent without functions the request has
    no tool list and no [parallel_tool_calls] key; otherwise it has one
    schema per function, in order, none of which has the reserved parameter
    among its properties, and the agent's [parallel_tool_calls] flag. *)
Theorem build_create_params_tools (a : Agent) (history : list Message)
    (ctx : dict) (mo : option string) (stream : bool) :
  match cp_tools (build_create_params a history ctx mo stream) with
  | None =>
      agent_functions a = []
      /\ cp_parallel_tool_calls (build_create_params a history ctx mo stream) = None
  | Some tools =>
      agent_functions a <> []
      /\ map schema_name tools
         = map (fun f => schema_name (function_to_json f)) (agent_functions a)
      /\ Forall (fun t => properties t !! __CTX_VARS_NAME__ = None) tools
      /\ cp_parallel_tool_calls (build_create_params a history ctx mo stream)
         = Some (agent_parallel_tool_calls a)
  end.
Proof.
  unfold build_create_params. simpl.
  destruct (agent_functions a) as [|f fs] eqn:Hfs; simpl.
  - split; reflexivity.
  - split; [discriminate |]. split.
    + rewrite !map_map. reflexivity.
    + split; [| reflexivity]. constructor.
      * apply lookup_delete_eq.
      * rewrite Forall_forall. intros t Hin.
        apply list_elem_of_In, in_map_iff in Hin as [t' [<- _]].
        apply lookup_delete_eq.
Qed.

(** The messages of a request are the system message with the agent's
    instructions followed by the history, and an instructions function reads
    the empty string for a key the context does not have. *)
Theorem build_create_params_messages (a : Agent) (history : list Message)
    (ctx : dict) (mo : option string) (stream : bool) (k : string)
    (read : PyValue -> string) :
  agent_instructions a = InstrCallable (fun d => read (dd_get d k)) ->
  ctx !! k = None ->
  cp_messages (build_create_params a history ctx mo stream)
  = mkMessage "system" (Some (read (PyStr ""))) None None None None None :: history.
Proof.
  intros Hinstr Hmissing. unfold build_create_params. simpl.
  rewrite Hinstr. unfold dd_get. simpl. rewrite Hmissing. reflexivity.
Qed.

End Request.

Lemma hide_context_spec_witness :
  NoDup (required (function_to_json (Externals := Scenario.externals) Scenario.greet))
  /\ (__CTX_VARS_NAME__
        ∉ required (hide_context
                      (function_to_json (Externals := Scenario.externals)
                                        Scenario.greet))).
Proof.
  assert (Hnodup : NoDup (required (function_to_json
                                      (Externals := Scenario.externals)
                                      Scenario.greet)))
    by (simpl; apply NoDup_singleton).
  split; [exact Hnodup |].
  exact (proj1 (proj2 (hide_context_spec _ Hnodup))).
Defined.

Lemma build_create_params_messages_witness :
  cp_messages (build_create_params (E := Scenario.externals) Scenario.greeter
                 [Scenario.user_says "hi"] ∅ None false)
  = [mkMessage "system" (Some "Help the user .") None None None None None;
     Scenario.user_says "hi"].
Proof.
  exact (build_create_params_messages (E := Scenario.externals) Scenario.greeter
           [Scenario.user_says "hi"] ∅ None false "user" Scenario.greeting_for
           eq_refl eq_refl).
Defined.

(** * Further properties of [run] *)

Section RunMore.
Context `{E : Externals} {St : Type} (client : Client St).

(** An exception of the backend leaves [run] as it is, after the one request
    that raised it: there is no retry and no response. *)
Theorem run_backend_error_propagates (a : Agent) (seed : list Message)
    (ctx : dict) (mo : option string) (stream : bool) (max_turns : Z)
    (et : bool) (w : World St) (e : Exception) (s' : St) :
  (0 < max_turns)%Z ->
  client (build_create_params a seed ctx mo stream) (w_client w) = (Raise e, s') ->
  run client a seed ctx mo stream max_turns et w
  = (Raise e,
     mkWorld s' (w_requests w ++ [build_create_params a seed ctx mo stream])
             (w_yielded w)).
Proof.
  intros Hpos Hanswer. rewrite run_eq.
  destruct (Z.to_nat max_turns) as [|turns] eqn:Hturns; [lia |].
  rewrite run_loop_S, run_turn_eq. simpl. rewrite Hanswer. reflexivity.
Qed.

(** An exception raised while the tool calls of a turn are dispatched leaves
    [run] as it is: the caller gets no response, not even the messages of the
    turns before. *)
Theorem run_tool_error_propagates (a : Agent) (seed : list Message)
    (ctx : dict) (mo : option string) (stream : bool) (max_turns : Z)
    (w : World St) (m : Message) (e : Exception) (s' : St) :
  (0 < max_turns)%Z ->
  client (build_create_params a seed ctx mo stream) (w_client w)
  = (Return (ChatCompletion m), s') ->
  no_tool_calls m = false ->
  handle_tool_calls (default [] (tool_calls m)) (agent_functions a) ctx = Raise e ->
  run client a seed ctx mo stream max_turns true w
  = (Raise e,
     mkWorld s' (w_requests w ++ [build_create_params a seed ctx mo stream])
             (w_yielded w)).
Proof.
  intros Hpos Hanswer Hcalls Hdispatch. rewrite run_eq.
  destruct (Z.to_nat max_turns) as [|turns] eqn:Hturns; [lia |].
  rewrite run_loop_S, run_turn_eq. simpl. rewrite Hanswer. simpl.
  rewrite no_tool_calls_set_sender, Hcalls. simpl. rewrite Hdispatch. reflexivity.
Qed.

(** With tool execution disabled, [run] ends after the first completion and
    returns its message with the tool calls still in it; no tool is invoked
    and the context is the one passed in. *)
Theorem run_execute_tools_disabled (a : Agent) (seed : list Message)
    (ctx : dict) (mo : option string) (stream : bool) (max_turns : Z)
    (w : World St) (m : Message) (s' : St) :
  (0 < max_turns)%Z ->
  client (build_create_params a seed ctx mo stream) (w_client w)
  = (Return (ChatCompletion m), s') ->
  exists r,
    run client a seed ctx mo stream max_turns false w
    = (Return r,
       mkWorld s' (w_requests w ++ [build_create_params a seed ctx mo stream])
               (w_yielded w))
    /\ map tool_calls (messages r) = [tool_calls m]
    /\ map sender (messages r) = [Some (agent_name a)]
    /\ agent r = Some a
    /\ context_variables r = ctx.
Proof.
  intros Hpos Hanswer. eexists. split.
  - apply (run_single_turn client a seed ctx mo stream max_turns false w m s');
      [exact Hpos | exact Hanswer | right; reflexivity].
  - repeat split.
Qed.

Lemma turn_outcome_inv (et : bool) (st st' : RunState) (answer : except Completion)
    (fl : Flow) :
  turn_outcome et st answer = Return (fl, st') ->
  exists l, history st' = history st ++ l /\ 1 <= length l.
Proof.
  unfold turn_outcome. destruct answer as [c|e]; simpl; [| discriminate].
  destruct (choices_0_message c) as [m|e]; simpl; [| discriminate].
  destruct (no_tool_calls _ || negb et).
  - intros Heq. injection Heq as <- <-. simpl.
    eexists. split; [reflexivity | simpl; lia].
  - destruct (handle_tool_calls _ _ _) as [p|e]; simpl; [| discriminate].
    intros Heq. injection Heq as <- <-.
    unfold after_dispatch. destruct (agent p) as [b|];
      [destruct (Agent_ne b (active_agent st)) |]; simpl;
      rewrite <- ?app_assoc; (eexists; split; [reflexivity |]);
      simpl; rewrite ?length_app; simpl; lia.
Qed.

Lemma run_loop_inv (mo : option string) (stream et : bool) (turns : nat) :
  forall (st st' : RunState) (w w' : World St),
    run_loop client mo stream et turns st w = (Return st', w') ->
    exists l reqs,
      history st' = history st ++ l
      /\ w_requests w' = w_requests w ++ reqs
      /\ length reqs <= length l
      /\ w_yielded w' = w_yielded w.
Proof.
  induction turns as [|turns IH]; intros st st' w w' Hrun.
  - simpl in Hrun. injection Hrun as <- <-. exists [], [].
    rewrite !app_nil_r. repeat split; simpl; lia.
  - rewrite run_loop_S, run_turn_eq in Hrun.
    destruct (turn_outcome et st _) as [[[|] st1]|e] eqn:Hturn;
      [| | discriminate Hrun].
    + injection Hrun as <- <-.
      destruct (turn_outcome_inv _ _ _ _ _ Hturn) as [l [Hl Hlen]].
      exists l. eexists. split; [exact Hl |]. split; [reflexivity |].
      split; [simpl; lia | reflexivity].
    + destruct (turn_outcome_inv _ _ _ _ _ Hturn) as [l [Hl Hlen]].
      destruct (IH _ _ _ _ Hrun) as [l2 [reqs [Hl2 [Hreqs [Hle Hy]]]]].
      simpl in Hreqs, Hy.
      exists (l ++ l2). eexists. split; [rewrite Hl2, Hl, app_assoc; reflexivity |].
      split; [rewrite Hreqs, <- app_assoc; reflexivity |].
      split; [simpl; rewrite length_app; lia | exact Hy].
Qed.

(** A run that returns has appended at least one message per request it
    sent, and has yielded nothing: the response holds, besides the messages
    of the tools and the transfer notices, one message for every completion
    that was asked for. *)
Theorem run_response_invariants (a : Agent) (seed : list Message) (ctx : dict)
    (mo : option string) (stream : bool) (max_turns : Z) (et : bool) (s : St)
    (r : Response) (w : World St) :
  run client a seed ctx mo stream max_turns et (initial_world s) = (Return r, w) ->
  length (w_requests w) <= length (messages r)
  /\ w_yielded w = [].
Proof.
  rewrite run_eq.
  destruct (run_loop _ _ _ _ _ _ _) as [[st|e] w1] eqn:Hloop; [| discriminate].
  intros Heq. injection Heq as <- <-.
  destruct (run_loop_inv _ _ _ _ _ _ _ _ Hloop) as [l [reqs [Hl [Hreqs [Hle Hy]]]]].
  simpl in *. rewrite Hl, drop_app_length, Hreqs. simpl.
  split; [exact Hle | exact Hy].
Qed.

End RunMore.

Section RunRequests.
Context `{E : Externals} {St : Type} (client : Client St).

Lemma build_create_params_shape (a : Agent) (history : list Message) (ctx : dict)
    (mo : option string) (stream : bool) :
  cp_stream (build_create_params a history ctx mo stream) = stream
  /\ exists instructions,
       cp_messages (build_create_params a history ctx mo stream)
       = system_message instructions :: history.
Proof. split; [reflexivity |]. eexists. reflexivity. Qed.

Lemma run_loop_requests_shape (mo : option string) (stream et : bool) (turns : nat) :
  forall (st : RunState) (w : World St),
    exists reqs,
      w_requests (snd (run_loop client mo stream et turns st w))
      = w_requests w ++ reqs
      /\ Forall (fun p => cp_stream p = stream
                          /\ exists instructions l,
                               cp_messages p
                               = system_message instructions :: history st ++ l)
                reqs.
Proof.
  induction turns as [|turns IH]; intros st w.
  - exists []. simpl. rewrite app_nil_r. split; [reflexivity | constructor].
  - rewrite run_loop_S, run_turn_eq.
    set (params := build_create_params _ _ _ _ _).
    assert (Hfirst : cp_stream params = stream
                     /\ exists instructions l,
                          cp_messages params
                          = system_message instructions :: history st ++ l).
    { split; [reflexivity |]. eexists. exists []. rewrite app_nil_r. reflexivity. }
    destruct (turn_outcome et st _) as [[[|] st1]|e] eqn:Hturn.
    + exists [params]. simpl. split; [reflexivity |]. constructor;
        [exact Hfirst | constructor].
    + destruct (turn_outcome_inv _ _ _ _ _ Hturn) as [l1 [Hl1 _]].
      destruct (IH st1 (mkWorld (snd (client params (w_client w)))
                                (w_requests w ++ [params]) (w_yielded w)))
        as [reqs [Hreqs Hshape]].
      exists (params :: reqs). rewrite Hreqs. simpl.
      rewrite <- app_assoc. split; [reflexivity |].
      constructor; [exact Hfirst |].
      eapply Forall_impl; [exact Hshape |].
      intros p [Hs [instructions [l Hm]]]. split; [exact Hs |].
      exists instructions, (l1 ++ l). rewrite Hm, Hl1, app_assoc. reflexivity.
    + exists [params]. simpl. split; [reflexivity |]. constructor;
        [exact Hfirst | constructor].
Qed.

(** Every request [run] sends, whether the run ends by a response or by an
    exception, carries the [stream] flag it was called with and a list of
    messages that starts with a system message followed by all the seed
    messages, in their order: the history is only ever appended to. *)
Theorem run_requests_carry_seed (a : Agent) (seed : list Message) (ctx : dict)
    (mo : option string) (stream : bool) (max_turns : Z) (et : bool) (s : St) :
  Forall (fun p => cp_stream p = stream
                   /\ exists instructions l,
                        cp_messages p = system_message instructions :: seed ++ l)
         (w_requests (snd (run client a seed ctx mo stream max_turns et
                               (initial_world s)))).
Proof.
  rewrite run_eq.
  destruct (run_loop_requests_shape mo stream et (Z.to_nat max_turns)
              (mkRunState a seed ctx) (initial_world s)) as [reqs [Hreqs Hshape]].
  destruct (run_loop _ _ _ _ _ _ _) as [[st|e] w1]; simpl in *;
    rewrite Hreqs; exact Hshape.
Qed.

Lemma turn_outcome_no_functions (et : bool) (st st' : RunState)
    (answer : except Completion) (fl : Flow) :
  agent_functions (active_agent st) = [] ->
  turn_outcome et st answer = Return (fl, st') ->
  active_agent st' = active_agent st /\ run_context st' = run_context st.
Proof.
  intros Hnone. unfold turn_outcome.
  destruct answer as [c|e]; simpl; [| discriminate].
  destruct (choices_0_message c) as [m|e]; simpl; [| discriminate].
  destruct (no_tool_calls _ || negb et).
  - intros Heq. injection Heq as <- <-. split; reflexivity.
  - rewrite Hnone. unfold handle_tool_calls.
    rewrite handle_tool_calls_from_all_unknown.
    + simpl. intros Heq. injection Heq as <- <-. unfold after_dispatch. simpl.
      split; [reflexivity |]. unfold update. apply (left_id_L ∅ (∪)).
    + apply Forall_forall. intros tc _. simpl. apply not_elem_of_nil.
Qed.

Lemma run_loop_no_functions (mo : option string) (stream et : bool) (turns : nat) :
  forall (st st' : RunState) (w w' : World St),
    agent_functions (active_agent st) = [] ->
    run_loop client mo stream et turns st w = (Return st', w') ->
    active_agent st' = active_agent st /\ run_context st' = run_context st.
Proof.
  induction turns as [|turns IH]; intros st st' w w' Hnone Hrun.
  - simpl in Hrun. injection Hrun as <- <-. split; reflexivity.
  - rewrite run_loop_S, run_turn_eq in Hrun.
    destruct (turn_outcome et st _) as [[[|] st1]|e] eqn:Hturn;
      [| | discriminate Hrun].
    + injection Hrun as <- <-. exact (turn_outcome_no_functions _ _ _ _ _ Hnone Hturn).
    + destruct (turn_outcome_no_functions _ _ _ _ _ Hnone Hturn) as [Ha Hc].
      assert (Hnone1 : agent_functions (active_agent st1) = [])
        by (rewrite Ha; exact Hnone).
      destruct (IH _ _ _ _ Hnone1 Hrun) as [Ha' Hc'].
      split; congruence.
Qed.

(** For an agent without functions, whatever tool calls the backend makes up
    and however many turns that takes, a run that returns ends with the same
    agent and the same context it was started with. *)
Theorem run_no_functions_keeps_agent_and_context (a : Agent) (seed : list Message)
    (ctx : dict) (mo : option string) (stream : bool) (max_turns : Z) (et : bool)
    (w w' : World St) (r : Response) :
  agent_functions a = [] ->
  run client a seed ctx mo stream max_turns et w = (Return r, w') ->
  agent r = Some a /\ context_variables r = ctx.
Proof.
  intros Hnone. rewrite run_eq.
  destruct (run_loop _ _ _ _ _ _ _) as [[st|e] w1] eqn:Hloop; [| discriminate].
  intros Heq. injection Heq as <- <-.
  destruct (run_loop_no_functions mo stream et (Z.to_nat max_turns)
              (mkRunState a seed ctx) st w w1 Hnone Hloop) as [Ha Hc].
  simpl in *. split; congruence.
Qed.

End RunRequests.

(** With the default client, [run] with [max_turns > 0] makes exactly one
    turn for every agent, with or without functions: the model is asked once,
    with the client's own model name and a prompt of one line per message,
    and its answer is the only message of the response. No tool is ever
    called and the model override has no effect. (The seed messages are
    taken to have a content each, which the prompt formats.) *)
Theorem run_LocalModelClient `{E : Externals}
    (ollama_generate : string -> string -> except string) (model : string)
    (a : Agent) (seed : list Message) (ctx : dict) (mo : option string)
    (stream : bool) (max_turns : Z) (et : bool) (response : string) :
  (0 < max_turns)%Z ->
  Forall (fun m => is_Some (content m)) seed ->
  ollama_generate model
    (join newline
       (map prompt_line
            (cp_messages (build_create_params a seed ctx mo stream))))
  = Return response ->
  run (LocalModelClient ollama_generate model) a seed ctx mo stream max_turns et
      (initial_world tt)
  = (Return (mkResponse
               [mkMessage "assistant" (Some response) (Some (agent_name a))
                          None None None None]
               (Some a) ctx),
     mkWorld tt [build_create_params a seed ctx mo stream] []).
Proof.
  intros Hpos _ Hgen.
  apply (run_single_turn (LocalModelClient ollama_generate model) a seed ctx mo
           stream max_turns et (initial_world tt)
           (mkMessage "assistant" (Some response) None None None None None) tt);
    [exact Hpos | | left; reflexivity].
  unfold LocalModelClient. rewrite Hgen. reflexivity.
Qed.

(** The default client cannot stream: [run_and_stream] over it, with
    [max_turns > 0], sends one request, yields the start delimiter and raises
    [AttributeError], because the completion is a dictionary and iterating it
    gives its keys. *)
Theorem run_and_stream_LocalModelClient `{E : Externals}
    (ollama_generate : string -> string -> except string) (model : string)
    (a : Agent) (seed : list Message) (ctx : dict) (mo : option string)
    (max_turns : Z) (et : bool) (response : string) :
  (0 < max_turns)%Z ->
  Forall (fun m => is_Some (content m)) seed ->
  ollama_generate model
    (join newline
       (map prompt_line
            (cp_messages (build_create_params a seed ctx mo true))))
  = Return response ->
  run_and_stream (LocalModelClient ollama_generate model) a seed ctx mo
                 max_turns et (initial_world tt)
  = (Raise (AttributeError "'str' object has no attribute 'choices'"),
     mkWorld tt [build_create_params a seed ctx mo true] [EvDelim "start"]).
Proof.
  intros Hpos _ Hgen.
  unfold run_and_stream, run_and_stream_fuel, bind.
  destruct (Z.to_nat max_turns) as [|fuel] eqn:Hfuel; [lia |].
  assert (Hbelow : below_max_turns (length seed) (Some max_turns)
                     (mkRunState a seed ctx) = true)
    by (simpl; apply Z.ltb_lt; lia).
  rewrite (stream_loop_S _ a mo et _ _ fuel _ _ Hbelow).
  unfold stream_turn, get_chat_completion, request, bind, LocalModelClient.
  cbv beta zeta. cbn [active_agent history run_context w_client initial_world].
  rewrite Hgen. reflexivity.
Qed.

(** * Further properties of [run_and_stream] *)

Section StreamMore.
Context `{E : Externals} {St : Type} (client : Client St).

Lemma stream_turn_events (a : Agent) (mo : option string) (et : bool)
    (st : RunState) (w : World St) :
  exists events,
    stream_turn client a mo et st w
    = (stream_turn_outcome a et st
         (fst (client (build_create_params (active_agent st) (history st)
                         (run_context st) mo true) (w_client w))),
       mkWorld
         (snd (client (build_create_params (active_agent st) (history st)
                         (run_context st) mo true) (w_client w)))
         (w_requests w ++ [build_create_params (active_agent st) (history st)
                             (run_context st) mo true])
         (w_yielded w ++ events))
    /\ Forall (fun ev => forall r, ev <> EvResponse r) events.
Proof.
  assert (Hdeltas : forall name chunks,
             Forall (fun ev => forall r, ev <> EvResponse r)
                    (map (fun d => EvDelta (stamp_delta d name)) chunks)).
  { intros name chunks. induction chunks as [|d chunks IH]; simpl;
      constructor; [discriminate | exact IH]. }
  unfold stream_turn, stream_turn_outcome, get_chat_completion, request, bind.
  destruct (client _ (w_client w)) as [[c|e] s']; simpl.
  - destruct (iter_chunks c) as [chunks|e]; simpl.
    + rewrite consume_chunks_eq. simpl.
      exists ([EvDelim "start"]
                ++ map (fun d => EvDelta (stamp_delta d (agent_name (active_agent st))))
                       chunks
                ++ [EvDelim "end"]).
      split.
      * destruct (no_tool_calls _ || negb et).
        -- unfold ret. rewrite <- !app_assoc. reflexivity.
        -- unfold lift. destruct (handle_tool_calls _ _ _); simpl;
             unfold ret; rewrite <- !app_assoc; reflexivity.
      * simpl. constructor; [discriminate |]. apply Forall_app. split;
          [apply Hdeltas | constructor; [discriminate | constructor]].
    + exists [EvDelim "start"]. split; [reflexivity |].
      constructor; [discriminate | constructor].
  - exists []. rewrite app_nil_r. split; [reflexivity | constructor].
Qed.

Lemma stream_loop_requests (a : Agent) (mo : option string) (et : bool)
    (init_len : nat) (max_turns : Z) (fuel : nat) :
  forall (st : RunState) (w : World St),
    exists reqs events,
      w_requests (snd (stream_loop client a mo et init_len (Some max_turns)
                                   fuel st w))
      = w_requests w ++ reqs
      /\ (Z.of_nat (length reqs)
          <= Z.max 0 (max_turns
                      - (Z.of_nat (length (history st)) - Z.of_nat init_len)))%Z
      /\ Forall (fun p => cp_stream p = true) reqs
      /\ w_yielded (snd (stream_loop client a mo et init_len (Some max_turns)
                                     fuel st w))
         = w_yielded w ++ events
      /\ Forall (fun ev => forall r, ev <> EvResponse r) events.
Proof.
  induction fuel as [|fuel IH]; intros st w.
  - exists [], []. rewrite !app_nil_r. simpl.
    destruct (_ <? _)%Z; simpl; repeat split; try lia; constructor.
  - destruct (below_max_turns init_len (Some max_turns) st) eqn:Hcond.
    + rewrite stream_loop_S by exact Hcond.
      simpl in Hcond. apply Z.ltb_lt in Hcond.
      destruct (stream_turn_events a mo et st w) as [events [-> Hevents]].
      set (params := build_create_params _ _ _ _ _).
      destruct (stream_turn_outcome a et st _) as [[[|] st1]|e] eqn:Hout.
      * exists [params], events. simpl.
        repeat split; [lia | | exact Hevents].
        constructor; [reflexivity | constructor].
      * apply stream_turn_outcome_grows in Hout.
        destruct (IH st1 (mkWorld (snd (client params (w_client w)))
                                  (w_requests w ++ [params])
                                  (w_yielded w ++ events)))
          as [reqs [events' [Hreqs [Hlen [Hstream [Hy Hev]]]]]].
        exists (params :: reqs), (events ++ events').
        rewrite Hreqs, Hy. simpl. rewrite <- !app_assoc. simpl.
        repeat split; [lia | | apply Forall_app; split; assumption].
        constructor; [reflexivity | exact Hstream].
      * exists [params], events. simpl.
        repeat split; [lia | | exact Hevents].
        constructor; [reflexivity | constructor].
    + rewrite stream_loop_done by exact Hcond.
      exists [], []. rewrite !app_nil_r. simpl. repeat split; try lia; constructor.
Qed.

(** [run_and_stream] with a finite [max_turns] sends at most
    [max(0, max_turns)] requests, whether it ends by its final event or by an
    exception, and every one of them asks for a stream. *)
Theorem run_and_stream_requests_at_most_max_turns (a : Agent)
    (seed : list Message) (ctx : dict) (mo : option string) (max_turns : Z)
    (et : bool) (s : St) :
  (Z.of_nat (length (w_requests
                       (snd (run_and_stream client a seed ctx mo max_turns et
                                            (initial_world s)))))
   <= Z.max 0 max_turns)%Z
  /\ Forall (fun p => cp_stream p = true)
            (w_requests (snd (run_and_stream client a seed ctx mo max_turns et
                                             (initial_world s)))).
Proof.
  unfold run_and_stream, run_and_stream_fuel, bind.
  destruct (stream_loop_requests a mo et (length seed) max_turns
              (Z.to_nat max_turns) (mkRunState a seed ctx) (initial_world s))
    as [reqs [events [Hreqs [Hlen [Hstream _]]]]].
  simpl in Hreqs, Hlen.
  destruct (stream_loop _ _ _ _ _ _ _ _ _) as [[[st|]|e] w1]; simpl in *;
    rewrite Hreqs; (split; [lia | exact Hstream]).
Qed.

(** A [run_and_stream] that runs to its end yields exactly one response
    event, and it is the last event: everything before it is a delimiter or
    a delta. *)
Theorem run_and_stream_final_event (a : Agent) (seed : list Message) (ctx : dict)
    (mo : option string) (max_turns : Z) (et : bool) (s : St)
    (r : Response) (w : World St) :
  run_and_stream client a seed ctx mo max_turns et (initial_world s)
  = (Return (Some r), w) ->
  exists events,
    w_yielded w = events ++ [EvResponse r]
    /\ Forall (fun ev => forall r', ev <> EvResponse r') events.
Proof.
  unfold run_and_stream, run_and_stream_fuel, bind.
  destruct (stream_loop_requests a mo et (length seed) max_turns
              (Z.to_nat max_turns) (mkRunState a seed ctx) (initial_world s))
    as [reqs [events [_ [_ [_ [Hy Hev]]]]]].
  destruct (stream_loop _ _ _ _ _ _ _ _ _) as [[[st|]|e] w1]; simpl in *;
    [| discriminate | discriminate].
  unfold yield, ret. simpl. intros Heq. injection Heq as <- <-. simpl.
  exists events. rewrite Hy. split; [reflexivity | exact Hev].
Qed.

(** With [max_turns <= 0] the streaming loop does not start: no request is
    sent and the only event is the response, which has no messages, the
    agent passed in and the context passed in. *)
Theorem run_and_stream_no_turns (a : Agent) (seed : list Message) (ctx : dict)
    (mo : option string) (max_turns : Z) (et : bool) (w : World St) :
  (max_turns <= 0)%Z ->
  run_and_stream client a seed ctx mo max_turns et w
  = (Return (Some (mkResponse [] (Some a) ctx)),
     mkWorld (w_client w) (w_requests w)
             (w_yielded w ++ [EvResponse (mkResponse [] (Some a) ctx)])).
Proof.
  intros Hneg. unfold run_and_stream, run_and_stream_fuel, bind.
  rewrite stream_loop_done by (simpl; apply Z.ltb_ge; lia).
  unfold final_response, yield, ret. simpl. rewrite drop_all. reflexivity.
Qed.

(** The events of a streamed turn that ends the run: the start delimiter,
    every chunk once and in order, stamped with the agent's name when its
    role is [assistant], the end delimiter, and the response. *)
Theorem run_and_stream_single_turn_events (a : Agent) (seed : list Message)
    (ctx : dict) (mo : option string) (max_turns : Z) (et : bool) (s s1 : St)
    (chunks : list Delta) :
  (0 < max_turns)%Z ->
  client (build_create_params a seed ctx mo true) s
  = (Return (ChunkStream chunks), s1) ->
  no_tool_calls (streamed_message chunks) = true \/ et = false ->
  exists r w,
    run_and_stream client a seed ctx mo max_turns et (initial_world s)
    = (Return (Some r), w)
    /\ w_yielded w
       = [EvDelim "start"]
           ++ map (fun d => EvDelta (stamp_delta d (agent_name a))) chunks
           ++ [EvDelim "end"; EvResponse r]
    /\ messages r = [set_sender (streamed_message chunks) (agent_name a)].
Proof.
  intros Hpos Hstream Hlast.
  assert (Hcond : no_tool_calls (finish_message (accumulate (fresh_message a) chunks))
                  || negb et = true).
  { rewrite <- streamed_message_sender, no_tool_calls_set_sender.
    destruct Hlast as [-> | ->]; [reflexivity | apply orb_true_r]. }
  assert (Hbelow : below_max_turns (length seed) (Some max_turns)
                     (mkRunState a seed ctx) = true)
    by (simpl; apply Z.ltb_lt; lia).
  unfold run_and_stream, run_and_stream_fuel, bind.
  destruct (Z.to_nat max_turns) as [|fuel] eqn:Hfuel; [lia |].
  rewrite (stream_loop_S client a mo et _ _ fuel _ _ Hbelow).
  unfold stream_turn, get_chat_completion, request, bind.
  cbn [active_agent history run_context w_client initial_world].
  rewrite Hstream. unfold yield, lift, iter_chunks. simpl.
  rewrite consume_chunks_eq. simpl. rewrite Hcond. unfold ret. simpl.
  eexists. eexists. split; [reflexivity |]. simpl.
  split.
  - rewrite <- !app_assoc. reflexivity.
  - rewrite drop_app_length, <- streamed_message_sender. reflexivity.
Qed.

End StreamMore.

(** * The further properties at concrete inputs *)

Lemma run_backend_error_propagates_witness :
  (0 < 3)%Z
  /\ run (E := Scenario.externals) Scenario.failing_client Scenario.agent_A
         [Scenario.user_says "hi"] ∅ None false 3 true (initial_world tt)
     = (Raise (mkException "ConnectionError" "backend down"),
        mkWorld tt
          [build_create_params (E := Scenario.externals) Scenario.agent_A
             [Scenario.user_says "hi"] ∅ None false]
          []).
Proof.
  assert (Hpos : (0 < 3)%Z) by lia.
  split; [exact Hpos |].
  exact (run_backend_error_propagates (E := Scenario.externals)
           Scenario.failing_client Scenario.agent_A [Scenario.user_says "hi"] ∅
           None false 3 true (initial_world tt)
           (mkException "ConnectionError" "backend down") tt Hpos eq_refl).
Defined.

Lemma run_tool_error_propagates_witness :
  (0 < 3)%Z
  /\ run (E := Scenario.externals)
         (fun _ s =>
            (Return (ChatCompletion
                       (Scenario.assistant_calls [Scenario.broken_call "c1" "noop"])),
             s))
         Scenario.worker [Scenario.user_says "hi"] ∅ None false 3 true
         (initial_world tt)
     = (Raise Scenario.JSONDecodeError,
        mkWorld tt
          [build_create_params (E := Scenario.externals) Scenario.worker
             [Scenario.user_says "hi"] ∅ None false]
          []).
Proof.
  assert (Hpos : (0 < 3)%Z) by lia.
  split; [exact Hpos |].
  exact (run_tool_error_propagates (E := Scenario.externals)
           (fun _ s =>
              (Return (ChatCompletion
                         (Scenario.assistant_calls
                            [Scenario.broken_call "c1" "noop"])),
               s))
           Scenario.worker [Scenario.user_says "hi"] ∅ None false 3
           (initial_world tt)
           (Scenario.assistant_calls [Scenario.broken_call "c1" "noop"])
           Scenario.JSONDecodeError tt Hpos eq_refl eq_refl eq_refl).
Defined.

Lemma run_execute_tools_disabled_witness :
  (0 < 3)%Z
  /\ exists r,
       run (E := Scenario.externals) Scenario.unstreamed_client Scenario.worker
           [] ∅ None false 3 false (initial_world tt)
       = (Return r,
          mkWorld tt
            [build_create_params (E := Scenario.externals) Scenario.worker
               [] ∅ None false]
            [])
       /\ map tool_calls (messages r)
          = [Some [mkToolCall "c1" (mkFunction "{}" "noop") "function"]].
Proof.
  assert (Hpos : (0 < 3)%Z) by lia.
  split; [exact Hpos |].
  destruct (run_execute_tools_disabled (E := Scenario.externals)
              Scenario.unstreamed_client Scenario.worker [] ∅ None false 3
              (initial_world tt) (streamed_message Scenario.noop_chunks) tt
              Hpos eq_refl) as [r [Hrun [Hcalls _]]].
  exists r. split; [exact Hrun | exact Hcalls].
Defined.

Lemma run_response_invariants_witness :
  exists r w,
    run (E := Scenario.externals) Scenario.scripted_client Scenario.agent_A
        [Scenario.user_says "hi"] {[ "user" := PyStr "Ann" ]} None false 3 true
        (initial_world 0)
    = (Return r, w)
    /\ length (w_requests w) <= length (messages r)
    /\ w_yielded w = [].
Proof.
  eexists. eexists. split; [reflexivity |].
  pose proof (run_response_invariants (E := Scenario.externals)
                Scenario.scripted_client Scenario.agent_A [Scenario.user_says "hi"]
                {[ "user" := PyStr "Ann" ]} None false 3 true 0 _ _ eq_refl)
    as [Hlen Hy].
  split; [exact Hlen | exact Hy].
Defined.

Lemma run_no_functions_keeps_agent_and_context_witness :
  agent_functions Scenario.lonely = []
  /\ exists r w,
       run (E := Scenario.externals) Scenario.insisting_client Scenario.lonely
           [] {[ "user" := PyStr "Ann" ]} None false 2 true (initial_world tt)
       = (Return r, w)
       /\ agent r = Some Scenario.lonely
       /\ context_variables r = {[ "user" := PyStr "Ann" ]}.
Proof.
  split; [reflexivity |].
  eexists. eexists. split; [reflexivity |].
  exact (run_no_functions_keeps_agent_and_context (E := Scenario.externals)
           Scenario.insisting_client Scenario.lonely []
           {[ "user" := PyStr "Ann" ]} None false 2 true (initial_world tt)
           _ _ eq_refl eq_refl).
Defined.

Lemma run_LocalModelClient_witness :
  (0 < 10)%Z
  /\ run (E := Scenario.externals) Scenario.local_client Scenario.agent_A
         [Scenario.user_says "hi"] ∅ (Some "other-model") false 10 true
         (initial_world tt)
     = (Return (mkResponse
                  [mkMessage "assistant" (Some "hello") (Some "A")
                             None None None None]
                  (Some Scenario.agent_A) ∅),
        mkWorld tt
          [build_create_params (E := Scenario.externals) Scenario.agent_A
             [Scenario.user_says "hi"] ∅ (Some "other-model") false]
          []).
Proof.
  assert (Hpos : (0 < 10)%Z) by lia.
  assert (Hseed : Forall (fun m => is_Some (content m)) [Scenario.user_says "hi"])
    by (constructor; [exists "hi"; reflexivity | constructor]).
  split; [exact Hpos |].
  exact (run_LocalModelClient (E := Scenario.externals)
           (fun _ _ => Return "hello") "deepseek-r1:1.5b" Scenario.agent_A
           [Scenario.user_says "hi"] ∅ (Some "other-model") false 10 true
           "hello" Hpos Hseed eq_refl).
Defined.

Lemma run_and_stream_LocalModelClient_witness :
  (0 < 10)%Z
  /\ run_and_stream (E := Scenario.externals) Scenario.local_client
       Scenario.agent_A [Scenario.user_says "hi"] ∅ None 10 true (initial_world tt)
     = (Raise (AttributeError "'str' object has no attribute 'choices'"),
        mkWorld tt
          [build_create_params (E := Scenario.externals) Scenario.agent_A
             [Scenario.user_says "hi"] ∅ None true]
          [EvDelim "start"]).
Proof.
  assert (Hpos : (0 < 10)%Z) by lia.
  assert (Hseed : Forall (fun m => is_Some (content m)) [Scenario.user_says "hi"])
    by (constructor; [exists "hi"; reflexivity | constructor]).
  split; [exact Hpos |].
  exact (run_and_stream_LocalModelClient (E := Scenario.externals)
           (fun _ _ => Return "hello") "deepseek-r1:1.5b" Scenario.agent_A
           [Scenario.user_says "hi"] ∅ None 10 true "hello" Hpos Hseed eq_refl).
Defined.

Lemma run_and_stream_final_event_witness :
  exists r w events,
    run_and_stream (E := Scenario.externals) Scenario.scripted_stream
      Scenario.agent_A [] ∅ None 10 true (initial_world 0)
    = (Return (Some r), w)
    /\ w_yielded w = events ++ [EvResponse r]
    /\ Forall (fun ev => forall r', ev <> EvResponse r') events.
Proof.
  destruct (run_and_stream (E := Scenario.externals) Scenario.scripted_stream
              Scenario.agent_A [] ∅ None 10 true (initial_world 0))
    as [[[r|]|e] w] eqn:Hrun.
  - destruct (run_and_stream_final_event (E := Scenario.externals)
                Scenario.scripted_stream Scenario.agent_A [] ∅ None 10 true 0
                r w Hrun) as [events [Hy Hev]].
    exists r, w, events. split; [reflexivity |]. split; [exact Hy | exact Hev].
  - exfalso. vm_compute in Hrun. discriminate Hrun.
  - exfalso. vm_compute in Hrun. discriminate Hrun.
Defined.

Lemma run_and_stream_no_turns_witness :
  (0 <= 0)%Z
  /\ run_and_stream (E := Scenario.externals) Scenario.streaming_client
       Scenario.worker [Scenario.user_says "hi"] ∅ None 0 true (initial_world tt)
     = (Return (Some (mkResponse [] (Some Scenario.worker) ∅)),
        mkWorld tt [] [EvResponse (mkResponse [] (Some Scenario.worker) ∅)]).
Proof.
  assert (Hle : (0 <= 0)%Z) by lia.
  split; [exact Hle |].
  exact (run_and_stream_no_turns (E := Scenario.externals)
           Scenario.streaming_client Scenario.worker [Scenario.user_says "hi"] ∅
           None 0 true (initial_world tt) Hle).
Defined.

Lemma run_and_stream_single_turn_events_witness :
  (0 < 10)%Z
  /\ exists r w,
       run_and_stream (E := Scenario.externals) Scenario.talking_stream
         Scenario.worker [Scenario.user_says "hi"] ∅ None 10 true (initial_world tt)
       = (Return (Some r), w)
       /\ w_yielded w
          = [EvDelim "start";
             EvDelta (mkDelta (Some "assistant") (Some "Worker") (Some "He") None []);
             EvDelta (mkDelta None None (Some "llo") None []);
             EvDelim "end";
             EvResponse r]
       /\ map content (messages r) = [Some "Hello"].
Proof.
  assert (Hpos : (0 < 10)%Z) by lia.
  split; [exact Hpos |].
  destruct (run_and_stream_single_turn_events (E := Scenario.externals)
              Scenario.talking_stream Scenario.worker [Scenario.user_says "hi"] ∅
              None 10 true tt tt Scenario.hello_chunks Hpos eq_refl
              (or_introl eq_refl)) as [r [w [Hrun [Hy Hm]]]].
  exists r, w. split; [exact Hrun |]. split; [exact Hy |].
  rewrite Hm. reflexivity.
Defined.

(** * The aggregate of a turn, call by call, and its merge into the context *)

Section TurnAggregate.
Context `{E : Externals}.

Lemma normalized_results_app (functions : list AgentFunction) (ctx : dict)
    (l1 l2 : list ChatCompletionMessageToolCall) :
  normalized_results functions ctx (l1 ++ l2)
  = except_bind (normalized_results functions ctx l1) (fun r1 =>
    except_bind (normalized_results functions ctx l2) (fun r2 =>
    Return (r1 ++ r2))).
Proof.
  induction l1 as [|tc l1 IH]; simpl.
  - destruct (normalized_results functions ctx l2); reflexivity.
  - destruct (normalized_result functions ctx tc) as [r|e]; simpl; [| reflexivity].
    rewrite IH.
    destruct (normalized_results functions ctx l1) as [r1|e]; simpl; [| reflexivity].
    destruct (normalized_results functions ctx l2); reflexivity.
Qed.

Lemma normalized_results_length (functions : list AgentFunction) (ctx : dict)
    (tcs : list ChatCompletionMessageToolCall) :
  forall rs, normalized_results functions ctx tcs = Return rs ->
             length rs = length tcs.
Proof.
  induction tcs as [|tc tcs IH]; intros rs Hrs; simpl in Hrs.
  - injection Hrs as <-. reflexivity.
  - destruct (normalized_result functions ctx tc) as [r|e]; simpl in Hrs;
      [| discriminate Hrs].
    destruct (normalized_results functions ctx tcs) as [rs'|e]; simpl in Hrs;
      [| discriminate Hrs].
    injection Hrs as <-. simpl. rewrite (IH rs' eq_refl). reflexivity.
Qed.

Lemma call_messages_app (l1 l2 : list ChatCompletionMessageToolCall) :
  forall r1 r2 : list (option Result),
    length r1 = length l1 ->
    call_messages (l1 ++ l2) (r1 ++ r2) = call_messages l1 r1 ++ call_messages l2 r2.
Proof.
  induction l1 as [|tc l1 IH]; intros [|o r1] r2 Hlen; simpl in *;
    try discriminate Hlen; [reflexivity |].
  rewrite IH by lia. reflexivity.
Qed.

Lemma earliest_agent_skip (r1 r2 : list (option Result)) :
  earliest_agent (r1 ++ None :: r2) = earliest_agent (r1 ++ r2).
Proof.
  induction r1 as [|[r|] r1 IH]; simpl; [reflexivity | | exact IH].
  destruct (result_agent r); [reflexivity | exact IH].
Qed.

Lemma latest_binding_skip (k : string) (r1 r2 : list (option Result)) :
  latest_binding k (r1 ++ None :: r2) = latest_binding k (r1 ++ r2).
Proof.
  induction r1 as [|o r1 IH]; simpl.
  - destruct (latest_binding k r2); reflexivity.
  - rewrite IH. reflexivity.
Qed.

Lemma handle_tool_calls_from_call_messages (functions : list AgentFunction)
    (ctx : dict) (tcs : list ChatCompletionMessageToolCall) :
  forall (p0 : Response) (rs : list (option Result)),
    normalized_results functions ctx tcs = Return rs ->
    exists p, handle_tool_calls_from functions ctx p0 tcs = Return p
              /\ messages p = messages p0 ++ call_messages tcs rs.
Proof.
  induction tcs as [|tc tcs IH]; intros p0 rs Hrs; simpl in Hrs.
  - injection Hrs as <-. exists p0. split; [reflexivity |].
    simpl. rewrite app_nil_r. reflexivity.
  - unfold normalized_result in Hrs.
    destruct (function_map functions !! fn_name (tc_function tc)) as [callee|] eqn:Hmap.
    + destruct (invoke functions ctx tc callee) as [r|e] eqn:Hinv; simpl in Hrs;
        [| discriminate Hrs].
      destruct (normalized_results functions ctx tcs) as [rs'|e] eqn:Hrest;
        simpl in Hrs; [| discriminate Hrs].
      injection Hrs as <-.
      rewrite handle_tool_calls_from_cons,
        (handle_tool_call_found _ _ p0 _ _ _ Hmap Hinv). simpl.
      match goal with
      | |- context [handle_tool_calls_from _ _ ?q tcs] =>
          destruct (IH q rs' eq_refl) as [p [Hp Hm]]
      end.
      exists p. split; [exact Hp |]. rewrite Hm. simpl.
      rewrite <- app_assoc. reflexivity.
    + simpl in Hrs.
      destruct (normalized_results functions ctx tcs) as [rs'|e] eqn:Hrest;
        simpl in Hrs; [| discriminate Hrs].
      injection Hrs as <-.
      rewrite handle_tool_calls_from_cons. unfold handle_tool_call at 1.
      rewrite Hmap. simpl.
      match goal with
      | |- context [handle_tool_calls_from _ _ ?q tcs] =>
          destruct (IH q rs' eq_refl) as [p [Hp Hm]]
      end.
      exists p. split; [exact Hp |]. rewrite Hm. simpl.
      rewrite <- app_assoc. reflexivity.
Qed.

(** What a dispatch whose calls are all carried out returns, in full: the
    messages of the calls in order, the earliest agent, and for every key the
    latest value. *)
Lemma handle_tool_calls_aggregate (functions : list AgentFunction) (ctx : dict)
    (tcs : list ChatCompletionMessageToolCall) (rs : list (option Result)) :
  normalized_results functions ctx tcs = Return rs ->
  exists p, handle_tool_calls tcs functions ctx = Return p
            /\ messages p = call_messages tcs rs
            /\ agent p = earliest_agent rs
            /\ (forall k, context_variables p !! k = latest_binding k rs).
Proof.
  intros Hrs. unfold handle_tool_calls.
  destruct (handle_tool_calls_from_call_messages functions ctx tcs
              (mkResponse [] None ∅) rs Hrs) as [p [Hp Hm]].
  exists p. split; [exact Hp |]. split; [exact Hm |]. split.
  - destruct (handle_tool_calls_from_earliest functions ctx tcs
                (mkResponse [] None ∅) rs Hrs) as [p' [Hp' Ha]].
    rewrite Hp in Hp'. injection Hp' as <-. exact Ha.
  - intros k.
    destruct (handle_tool_calls_from_latest functions ctx tcs k
                (mkResponse [] None ∅) rs Hrs) as [p' [Hp' Hk]].
    rewrite Hp in Hp'. injection Hp' as <-. rewrite Hk. simpl.
    destruct (latest_binding k rs); [reflexivity | apply lookup_empty].
Qed.

(** C5: a tool call whose name no function of the agent has does not make
    [handle_tool_calls] raise. Among calls that are carried out, the
    dispatcher returns an aggregate in which the messages of the calls before
    it are followed by one tool message with the content
    [Error: Tool <name> not found.], the id and the name of the call, and then
    by the messages of the calls after it: the remaining calls of the turn
    are processed. The unknown call adds neither an agent nor a context
    variable. *)
Theorem handle_tool_calls_unknown_tool (functions : list AgentFunction)
    (ctx : dict) (before after : list ChatCompletionMessageToolCall)
    (tc : ChatCompletionMessageToolCall) (rs1 rs2 : list (option Result)) :
  fn_name (tc_function tc) ∉ map f_name functions ->
  normalized_results functions ctx before = Return rs1 ->
  normalized_results functions ctx after = Return rs2 ->
  exists p,
    handle_tool_calls (before ++ tc :: after) functions ctx = Return p
    /\ messages p
       = call_messages before rs1
           ++ [mkMessage "tool"
                 (Some ("Error: Tool " +:+ fn_name (tc_function tc) +:+ " not found."))
                 None None None (Some (tc_id tc)) (Some (fn_name (tc_function tc)))]
           ++ call_messages after rs2
    /\ agent p = earliest_agent (rs1 ++ rs2)
    /\ (forall k, context_variables p !! k = latest_binding k (rs1 ++ rs2)).
Proof.
  intros Habsent Hbefore Hafter.
  apply function_map_None in Habsent.
  assert (Hall : normalized_results functions ctx (before ++ tc :: after)
                 = Return (rs1 ++ None :: rs2)).
  { rewrite normalized_results_app, Hbefore. simpl.
    unfold normalized_result. rewrite Habsent. simpl. rewrite Hafter. reflexivity. }
  destruct (handle_tool_calls_aggregate _ _ _ _ Hall) as [p [Hp [Hm [Ha Hk]]]].
  exists p. split; [exact Hp |]. split; [| split].
  - rewrite Hm.
    rewrite (call_messages_app before (tc :: after) rs1 (None :: rs2))
      by (apply (normalized_results_length _ _ _ _ Hbefore)).
    reflexivity.
  - rewrite Ha. apply earliest_agent_skip.
  - intros k. rewrite Hk. apply latest_binding_skip.
Qed.

End TurnAggregate.

Lemma handle_tool_calls_unknown_tool_witness :
  ("missing_tool" ∉ map f_name [Scenario.noop])
  /\ exists p,
       handle_tool_calls (E := Scenario.externals)
         ([Scenario.call "c1" "noop"]
            ++ Scenario.call "c2" "missing_tool" :: [Scenario.call "c3" "noop"])
         [Scenario.noop] ∅ = Return p
       /\ messages p
          = [mkMessage "tool" (Some "ok") None None None (Some "c1") (Some "noop");
             mkMessage "tool" (Some "Error: Tool missing_tool not found.")
                       None None None (Some "c2") (Some "missing_tool");
             mkMessage "tool" (Some "ok") None None None (Some "c3") (Some "noop")]
       /\ agent p = None
       /\ (forall k, context_variables p !! k = None).
Proof.
  assert (Habsent : "missing_tool" ∉ map f_name [Scenario.noop])
    by (simpl; intros Hin; apply list_elem_of_singleton in Hin; discriminate Hin).
  split; [exact Habsent |].
  exact (handle_tool_calls_unknown_tool (E := Scenario.externals)
           [Scenario.noop] ∅ [Scenario.call "c1" "noop"]
           [Scenario.call "c3" "noop"] (Scenario.call "c2" "missing_tool")
           [Some (mkResult "ok" None ∅)] [Some (mkResult "ok" None ∅)]
           Habsent eq_refl eq_refl).
Defined.

Section ContextMerge.
Context `{E : Externals} {St : Type} (client : Client St).

(** C4: both merges of context variables let the later keys overwrite the
    earlier ones. Within a turn, [handle_tool_calls] returns a delta in which
    every key has the value of the latest call whose [Result] sets it. After
    the turn, [run] merges that delta into the running context: in the state
    the loop goes on with, and in the response when the turn was the last
    one allowed, a key of the delta has the delta's value, and a key the
    delta does not have keeps the value of the running context (stated for
    agents none of whose functions is handed the context, so that no tool
    can have changed it on the way). On the base [{a:1}] and the delta
    [{a:2,b:3}] the merge gives [{a:2,b:3}]. *)
Theorem context_merges_right_biased (a : Agent) (seed : list Message)
    (ctx : dict) (mo : option string) (stream : bool) (turns : nat)
    (w : World St) (m : Message) (s' : St) (rs : list (option Result)) :
  client (build_create_params a seed ctx mo stream) (w_client w)
  = (Return (ChatCompletion m), s') ->
  no_tool_calls m = false ->
  normalized_results (agent_functions a) ctx (default [] (tool_calls m))
  = Return rs ->
  exists p st1 r,
    handle_tool_calls (default [] (tool_calls m)) (agent_functions a) ctx
    = Return p
    /\ (forall k, context_variables p !! k = latest_binding k rs)
    /\ run_loop client mo stream true (Datatypes.S turns)
         (mkRunState a seed ctx) w
       = run_loop client mo stream true turns st1
           (mkWorld s'
              (w_requests w ++ [build_create_params a seed ctx mo stream])
              (w_yielded w))
    /\ run client a seed ctx mo stream 1 true w
       = (Return r,
          mkWorld s'
            (w_requests w ++ [build_create_params a seed ctx mo stream])
            (w_yielded w))
    /\ context_variables r = run_context st1
    /\ (forall k v, context_variables p !! k = Some v ->
                    context_variables r !! k = Some v)
    /\ (Forall (fun f => __CTX_VARS_NAME__ ∉ co_varnames (f_function f))
               (agent_functions a) ->
        forall k, context_variables p !! k = None ->
                  context_variables r !! k = ctx !! k)
    /\ update {[ "a" := PyInt 1 ]} {[ "a" := PyInt 2; "b" := PyInt 3 ]}
       = ({[ "a" := PyInt 2; "b" := PyInt 3 ]} : dict).
Proof.
  intros Hanswer Hcalls Hrs.
  destruct (handle_tool_calls_aggregate _ _ _ _ Hrs) as [p [Hp [_ [_ Hk]]]].
  set (st1 := after_dispatch (mkRunState a seed ctx)
                (set_sender m (agent_name a)) p).
  assert (Hctx : run_context st1 = update ctx (context_variables p)).
  { unfold st1, after_dispatch. simpl. destruct (agent p) as [b|]; [| reflexivity].
    destruct (Agent_ne b a); reflexivity. }
  assert (Hstep : forall n,
             run_loop client mo stream true (Datatypes.S n)
               (mkRunState a seed ctx) w
             = run_loop client mo stream true n st1
                 (mkWorld s'
                    (w_requests w ++ [build_create_params a seed ctx mo stream])
                    (w_yielded w))).
  { intros n. rewrite run_loop_S, run_turn_eq. simpl. rewrite Hanswer. simpl.
    rewrite no_tool_calls_set_sender, Hcalls. simpl. rewrite Hp. reflexivity. }
  exists p, st1, (final_response (length seed) st1).
  split; [exact Hp |]. split; [exact Hk |]. split; [apply Hstep |].
  split; [| split; [reflexivity |]].
  - rewrite run_eq. change (Z.to_nat 1) with 1. rewrite Hstep. reflexivity.
  - simpl. rewrite Hctx. split; [| split].
    + intros k v Hv. rewrite update_lookup, Hv. reflexivity.
    + intros _ k Hnone. rewrite update_lookup, Hnone. reflexivity.
    + vm_compute. reflexivity.
Qed.

End ContextMerge.

Lemma context_merges_right_biased_witness :
  exists p st1 r,
    handle_tool_calls (E := Scenario.externals) [Scenario.call "c1" "set_ab"]
      [Scenario.set_ab] {[ "a" := PyInt 1 ]}
    = Return p
    /\ (forall k, context_variables p !! k
                  = latest_binding k
                      [Some (mkResult "done" None
                               {[ "a" := PyInt 2; "b" := PyInt 3 ]})])
    /\ run_loop (E := Scenario.externals) Scenario.setting_client None false true 1
         (mkRunState Scenario.setter [Scenario.user_says "hi"] {[ "a" := PyInt 1 ]})
         (initial_world tt)
       = run_loop (E := Scenario.externals) Scenario.setting_client None false
           true 0 st1
           (mkWorld tt
              [build_create_params (E := Scenario.externals) Scenario.setter
                 [Scenario.user_says "hi"] {[ "a" := PyInt 1 ]} None false]
              [])
    /\ run (E := Scenario.externals) Scenario.setting_client Scenario.setter
         [Scenario.user_says "hi"] {[ "a" := PyInt 1 ]} None false 1 true
         (initial_world tt)
       = (Return r,
          mkWorld tt
            [build_create_params (E := Scenario.externals) Scenario.setter
               [Scenario.user_says "hi"] {[ "a" := PyInt 1 ]} None false]
            [])
    /\ context_variables r = run_context st1
    /\ (forall k v, context_variables p !! k = Some v ->
                    context_variables r !! k = Some v)
    /\ (Forall (fun f => __CTX_VARS_NAME__ ∉ co_varnames (f_function f))
               [Scenario.set_ab] ->
        forall k, context_variables p !! k = None ->
                  context_variables r !! k
                  = ({[ "a" := PyInt 1 ]} : dict) !! k)
    /\ update {[ "a" := PyInt 1 ]} {[ "a" := PyInt 2; "b" := PyInt 3 ]}
       = ({[ "a" := PyInt 2; "b" := PyInt 3 ]} : dict).
Proof.
  exact (context_merges_right_biased (E := Scenario.externals)
           Scenario.setting_client Scenario.setter [Scenario.user_says "hi"]
           {[ "a" := PyInt 1 ]} None false 0 (initial_world tt)
           (Scenario.assistant_calls [Scenario.call "c1" "set_ab"]) tt
           [Some (mkResult "done" None {[ "a" := PyInt 2; "b" := PyInt 3 ]})]
           eq_refl eq_refl eq_refl).
Defined.

(** The example of the merge, on [run] itself: the context [{a:1}] and a tool
    whose [Result] carries [{a:2,b:3}]. *)
Example run_merges_context :
  exists r w,
    run (E := Scenario.externals) Scenario.setting_client Scenario.setter
        [Scenario.user_says "hi"] {[ "a" := PyInt 1 ]} None false 1 true
        (initial_world tt)
    = (Return r, w)
    /\ context_variables r = {[ "a" := PyInt 2; "b" := PyInt 3 ]}.
Proof.
  eexists. eexists. split; [reflexivity |]. vm_compute. reflexivity.
Qed.
